(** * Warbler: the route handlers of [app.py] over a relational store

    The handlers of [app.py] are embedded as functions from the state a
    request meets (the stored tables and the cookie session) to the state it
    leaves, the messages it flashes and the response it returns.  The tables
    are declared in [models.py] and the forms in [forms.py]; what the
    handlers need of them is modelled below and marked as such. *)

From stdpp Require Import base option list sorting gmap strings pretty.
From Stdlib Require Import ZArith.

Local Open Scope string_scope.

(** ** Data model *)

Module User.
Record t := mk {
  id : nat;
  username : string;
  email : string;
  password : string;          (* the stored hash *)
  image_url : string;
  header_image_url : string;
  bio : string
}.
#[global] Instance eq_dec : EqDecision t.
Proof. solve_decision. Defined.
End User.

Module Message.
Record t := mk {
  id : nat;
  text : string;
  timestamp : Z;
  user_id : nat
}.
#[global] Instance eq_dec : EqDecision t.
Proof. solve_decision. Defined.
End Message.

Module Follow.
Record t := mk {
  follower_id : nat;
  followed_id : nat
}.
#[global] Instance eq_dec : EqDecision t.
Proof. solve_decision. Defined.
End Follow.

Module Like.
Record t := mk {
  user_id : nat;
  message_id : nat
}.
#[global] Instance eq_dec : EqDecision t.
Proof. solve_decision. Defined.
End Like.

(** The stored tables.  Rows are kept in lists: the order of the rows and a
    row stored twice are both visible to the handlers.  The two sequences
    hand out the primary keys of new users and messages. *)
Record DB := mkDB {
  users : list User.t;
  messages : list Message.t;
  follows : list Follow.t;
  likes : list Like.t;
  users_id_seq : nat;
  messages_id_seq : nat
}.

(** Two stores hold the same rows (the sequences apart). *)
Definition same_rows (d1 d2 : DB) : Prop :=
  users d1 = users d2 ∧ messages d1 = messages d2 ∧
  follows d1 = follows d2 ∧ likes d1 = likes d2.

(** ** Queries *)

(** [User.query.get(user_id)] *)
Definition User_query_get (d : DB) (user_id : nat) : option User.t :=
  snd <$> list_find (λ u, User.id u = user_id) (users d).

(** [Message.query.get(message_id)] *)
Definition Message_query_get (d : DB) (message_id : nat) : option Message.t :=
  snd <$> list_find (λ m, Message.id m = message_id) (messages d).

(** Modelled from the spec: the [following] collection of a user, declared
    in [models.py]: the forward traversal of the edge table, the followed
    users of the edges whose follower is [u], one entry per edge. *)
Definition following (d : DB) (u : User.t) : list User.t :=
  omap (λ e, if decide (Follow.follower_id e = User.id u)
             then User_query_get d (Follow.followed_id e) else None)
       (follows d).

(** Modelled from the spec: the [followers] collection, the reverse
    traversal of the edge table. *)
Definition followers (d : DB) (u : User.t) : list User.t :=
  omap (λ e, if decide (Follow.followed_id e = User.id u)
             then User_query_get d (Follow.follower_id e) else None)
       (follows d).

(** Modelled from the spec: the [liked_messages] collection of a user, the
    messages of the like edges of [u], one entry per edge. *)
Definition liked_messages (d : DB) (u : User.t) : list Message.t :=
  omap (λ e, if decide (Like.user_id e = User.id u)
             then Message_query_get d (Like.message_id e) else None)
       (likes d).

(** ** Session, request context and responses *)

Definition CURR_USER_KEY : string := "curr_user".

(** The state a request meets and leaves: the stored tables and the cookie
    session, a dictionary from keys to user ids. *)
Record State := mkState {
  db : DB;
  session : gmap string nat
}.

(** Flask's [g]: [csrf_form] is only set when the session names a user. *)
Record G := mkG {
  g_user : option User.t;
  g_csrf_form : bool
}.

(** [add_user_and_csrf_to_g], run before every request. *)
Definition add_user_and_csrf_to_g (st : State) : G :=
  match session st !! CURR_USER_KEY with
  | Some uid => {| g_user := User_query_get (db st) uid; g_csrf_form := true |}
  | None => {| g_user := None; g_csrf_form := false |}
  end.

Inductive Exn :=
| IntegrityError
| ValueError
| AttributeError.

(** What a template is rendered with. *)
Inductive TemplateArgs :=
| NoArgs
| FormArgs (errors : list string)
| UserArgs (user : option User.t)
| UsersArgs (users : list User.t)
| UserFormArgs (user : User.t) (errors : list string)
| MessageArgs (message : Message.t)
| MessagesArgs (messages : list Message.t).

Inductive Response :=
| Redirect (location : string)
| RedirectForm (location : option string)
| Render (template : string) (args : TemplateArgs)
| NotFound                      (* get_or_404 aborts the request: 404 *)
| Unauthorized                  (* werkzeug.exceptions.Unauthorized: 401 *)
| Uncaught (e : Exn).           (* an exception no handler catches: 500 *)

(** [flash(message, category)] *)
Definition Flash : Type := string * string.

Record Result := mkResult {
  state_after : State;
  flashed : list Flash;
  response : Response
}.

Definition unauthorized_flash : Flash := ("Access unauthorized.", "danger").

(** A request that changes nothing and answers [r]. *)
Definition answer (st : State) (fl : list Flash) (r : Response) : Result :=
  {| state_after := st; flashed := fl; response := r |}.

(** ** Homepage *)

(** [order_by(Message.timestamp.desc())]: the newer message first. *)
Definition newer_first (m1 m2 : Message.t) : Prop :=
  (Message.timestamp m2 ≤ Message.timestamp m1)%Z.

#[global] Instance newer_first_dec m1 m2 : Decision (newer_first m1 m2).
Proof. unfold newer_first. apply _. Defined.

(** The query of [homepage]: filter, order, limit. *)
Definition home_messages (d : DB) (u : User.t) : list Message.t :=
  let following_ids := ((User.id <$> following d u) ++ [User.id u])%list in
  take 100
    (merge_sort newer_first
       (filter (λ m, Message.user_id m ∈ following_ids) (messages d))).

Definition homepage (st : State) : Result :=
  match g_user (add_user_and_csrf_to_g st) with
  | Some u => answer st [] (Render "home.html" (MessagesArgs (home_messages (db st) u)))
  | None => answer st [] (Render "home-anon.html" NoArgs)
  end.

(** ** What the handlers take from [models.py], [forms.py] and the libraries *)

(** The constants of [models.py] and the library functions the handlers
    call: the password hash, the column defaults and the storage engine's
    [LIKE]. *)
Class Env := {
  generate_password_hash : string → string;
  check_password_hash : string → string → bool;
  DEFAULT_IMAGE_URL : string;
  DEFAULT_HEADER_IMAGE_URL : string;
  image_url_default : string;           (* User.image_url.default.arg *)
  header_image_url_default : string;
  bio_default : string;
  sql_like : string → string → bool     (* [sql_like pattern s] *)
}.

(** A submitted form.  [validate] is the verdict of the form's validators
    and of its anti-forgery token; [errors] is what a rejected form shows. *)
Record UserAddForm := {
  uaf_validate : bool;
  uaf_errors : list string;
  uaf_username : string;
  uaf_password : string;
  uaf_email : string;
  uaf_image_url : string
}.

Record LoginForm := {
  lf_validate : bool;
  lf_errors : list string;
  lf_username : string;
  lf_password : string
}.

Record EditForm := {
  ef_validate : bool;
  ef_errors : list string;
  ef_username : string;
  ef_email : string;
  ef_image_url : string;
  ef_header_image_url : string;
  ef_bio : string;
  ef_password : string
}.

Record MessageForm := {
  mf_validate : bool;
  mf_errors : list string;
  mf_text : string
}.

(** Python's [a or b] on strings: the empty string is falsy. *)
Definition py_or (a b : string) : string :=
  if decide (a = "") then b else a.

(** Python's [list.remove(x)]: drops the first element equal to [x];
    [None] stands for the [ValueError] raised when there is none. *)
Fixpoint list_remove {A} `{EqDecision A} (x : A) (l : list A) : option (list A) :=
  match l with
  | [] => None
  | y :: l' => if decide (x = y) then Some l' else (y ::.) <$> list_remove x l'
  end.

(** ** The unit of work: what [db.session.commit()] writes

    A commit flushes the pending change as one statement.  When the
    statement violates a uniqueness constraint the database rolls the
    transaction back, no row is written, and [IntegrityError] reaches the
    caller. *)

Definition set_users (us : list User.t) (d : DB) : DB :=
  mkDB us (messages d) (follows d) (likes d) (users_id_seq d) (messages_id_seq d).
Definition set_follows (fs : list Follow.t) (d : DB) : DB :=
  mkDB (users d) (messages d) fs (likes d) (users_id_seq d) (messages_id_seq d).
Definition set_likes (ls : list Like.t) (d : DB) : DB :=
  mkDB (users d) (messages d) (follows d) ls (users_id_seq d) (messages_id_seq d).

(** Modelled from the spec: username and email are unique across users.
    [taken d skip u]: a row other than the one with key [skip] carries the
    username or the email of [u]. *)
Definition taken (d : DB) (skip : option nat) (u : User.t) : Prop :=
  Exists (λ v, Some (User.id v) ≠ skip ∧
               (User.username v = User.username u ∨ User.email v = User.email u))
         (users d).

#[global] Instance taken_dec d skip u : Decision (taken d skip u).
Proof. unfold taken. apply _. Defined.

(** Modelled from the spec: [User.signup] of [models.py]: hashes the
    password and registers the new user with the session; the row gets its
    key when it is flushed. *)
Definition User_signup `{Env} (username password email image_url : string)
    : nat → User.t :=
  λ key, {| User.id := key;
            User.username := username;
            User.email := email;
            User.password := generate_password_hash password;
            User.image_url := image_url;
            User.header_image_url := header_image_url_default;
            User.bio := bio_default |}.

(** Commit of a pending new user: the sequence hands out the key (also to
    a statement that then fails), the row is appended unless its username
    or email is taken. *)
Definition commit_new_user (pending : nat → User.t) (d : DB) : DB * (Exn + User.t) :=
  let user := pending (users_id_seq d) in
  let d1 := mkDB (users d) (messages d) (follows d) (likes d)
                 (S (users_id_seq d)) (messages_id_seq d) in
  if decide (taken d None user) then (d1, inl IntegrityError)
  else (set_users (users d ++ [user])%list d1, inr user).

(** Commit of changed attributes of a stored user: every row with the key
    is replaced unless the new username or email is taken by another row. *)
Definition commit_update_user (user : User.t) (d : DB) : Exn + DB :=
  if decide (taken d (Some (User.id user)) user) then inl IntegrityError
  else inr (set_users ((λ v, if decide (User.id v = User.id user) then user else v)
                         <$> users d) d).

(** Modelled from the spec: [User.authenticate] of [models.py]: looks the
    user up by username and verifies the hash; [None] is the failure
    signal. *)
Definition User_authenticate `{Env} (d : DB) (username password : string)
    : option User.t :=
  match list_find (λ u, User.username u = username) (users d) with
  | Some (_, u) => if check_password_hash (User.password u) password
                   then Some u else None
  | None => None
  end.

(** [g.user.following.append(followed_user)] and commit.  The unit of
    work writes an edge only for a member that was not in the collection
    as it was loaded: for a user who is in [following] already the commit
    writes nothing, for any other user it writes the new edge. *)
Definition following_append (u followed_user : User.t) (d : DB) : DB :=
  if decide (followed_user ∈ following d u) then d
  else set_follows
         (follows d ++ [Follow.mk (User.id u) (User.id followed_user)])%list d.

(** [g.user.following.remove(followed_user)]: a list's [remove]. *)
Definition following_remove (u followed_user : User.t) (d : DB) : Exn + DB :=
  match list_remove (Follow.mk (User.id u) (User.id followed_user)) (follows d) with
  | Some fs => inr (set_follows fs d)
  | None => inl ValueError
  end.

(** [g.user.liked_messages.append(msg)] and commit. *)
Definition liked_messages_append (u : User.t) (msg : Message.t) (d : DB) : DB :=
  set_likes (likes d ++ [Like.mk (User.id u) (Message.id msg)])%list d.

(** [g.user.liked_messages.remove(msg)] *)
Definition liked_messages_remove (u : User.t) (msg : Message.t) (d : DB) : Exn + DB :=
  match list_remove (Like.mk (User.id u) (Message.id msg)) (likes d) with
  | Some ls => inr (set_likes ls d)
  | None => inl ValueError
  end.

(** [g.user.messages.append(msg)] and commit: the message gets its key from
    the sequence, its owner from the collection and its timestamp from the
    clock. *)
Definition messages_append (u : User.t) (text : string) (now : Z) (d : DB) : DB :=
  mkDB (users d)
       (messages d ++ [Message.mk (messages_id_seq d) text now (User.id u)])%list
       (follows d) (likes d) (users_id_seq d) (S (messages_id_seq d)).

(** Modelled from the spec: deleting a message; with the foreign keys of
    the like edges no edge is left pointing at it. *)
Definition Message_delete (msg : Message.t) (d : DB) : DB :=
  mkDB (users d)
       (filter (λ m, Message.id m ≠ Message.id msg) (messages d))
       (follows d)
       (filter (λ e, Like.message_id e ≠ Message.id msg) (likes d))
       (users_id_seq d) (messages_id_seq d).

(** Modelled from the spec: deleting a user cascades to the messages the
    user owns and to the follow and like edges of the user (and with the
    messages go the like edges on them). *)
Definition User_delete (user_id : nat) (d : DB) : DB :=
  let owned := filter (λ m, Message.user_id m = user_id) (messages d) in
  mkDB (filter (λ u, User.id u ≠ user_id) (users d))
       (filter (λ m, Message.user_id m ≠ user_id) (messages d))
       (filter (λ e, Follow.follower_id e ≠ user_id ∧ Follow.followed_id e ≠ user_id)
               (follows d))
       (filter (λ e, Like.user_id e ≠ user_id ∧
                     Like.message_id e ∉ (Message.id <$> owned))
               (likes d))
       (users_id_seq d) (messages_id_seq d).

(** ** Route handlers *)

(** [do_login] *)
Definition do_login (user : User.t) (s : gmap string nat) : gmap string nat :=
  <[CURR_USER_KEY := User.id user]> s.

(** [do_logout] *)
Definition do_logout (s : gmap string nat) : gmap string nat :=
  if decide (is_Some (s !! CURR_USER_KEY)) then delete CURR_USER_KEY s else s.

(** The rejection every gated route starts with. *)
Definition unauthorized (st : State) : Result :=
  answer st [unauthorized_flash] (Redirect "/").

(** [g.csrf_form.validate_on_submit()]: reading [csrf_form] off a [g] that
    has none raises. *)
Definition csrf_validate_on_submit (g : G) (token_valid : bool) : Exn + bool :=
  if g_csrf_form g then inr token_valid else inl AttributeError.

(** The gate [not g.user or not g.csrf_form.validate_on_submit()] of the
    mutating routes; [k] is the handler behind it. *)
Definition gated (st : State) (token_valid : bool) (k : User.t → Result) : Result :=
  let g := add_user_and_csrf_to_g st in
  match g_user g with
  | None => unauthorized st
  | Some u =>
      match csrf_validate_on_submit g token_valid with
      | inl e => answer st [] (Uncaught e)
      | inr false => unauthorized st
      | inr true => k u
      end
  end.

(** The gate [not g.user] of the reading routes. *)
Definition logged_in (st : State) (k : User.t → Result) : Result :=
  match g_user (add_user_and_csrf_to_g st) with
  | None => unauthorized st
  | Some u => k u
  end.

Definition user_url (u : User.t) : string := "/users/" ++ pretty (User.id u).

(** [/signup]; [form] is [None] for a GET. *)
Definition signup `{Env} (form : option UserAddForm) (st : State) : Result :=
  let session1 := do_logout (session st) in
  let st1 := mkState (db st) session1 in
  match form with
  | Some f =>
      if uaf_validate f then
        match commit_new_user
                (User_signup (uaf_username f) (uaf_password f) (uaf_email f)
                             (py_or (uaf_image_url f) image_url_default))
                (db st) with
        | (d, inl IntegrityError) =>
            {| state_after := mkState d session1;
               flashed := [("Username already taken", "danger")];
               response := Render "users/signup.html" (FormArgs (uaf_errors f)) |}
        | (d, inl e) => answer (mkState d session1) [] (Uncaught e)
        | (d, inr user) =>
            answer (mkState d (do_login user session1)) [] (Redirect "/")
        end
      else answer st1 [] (Render "users/signup.html" (FormArgs (uaf_errors f)))
  | None => answer st1 [] (Render "users/signup.html" (FormArgs []))
  end.

(** [/login] *)
Definition login `{Env} (form : option LoginForm) (st : State) : Result :=
  match form with
  | Some f =>
      if lf_validate f then
        match User_authenticate (db st) (lf_username f) (lf_password f) with
        | Some user =>
            answer (mkState (db st) (do_login user (session st)))
                   [("Hello, " ++ User.username user ++ "!", "success")]
                   (Redirect "/")
        | None =>
            answer st [("Invalid credentials.", "danger")]
                   (Render "users/login.html" (FormArgs (lf_errors f)))
        end
      else answer st [] (Render "users/login.html" (FormArgs (lf_errors f)))
  | None => answer st [] (Render "users/login.html" (FormArgs []))
  end.

(** [/logout] *)
Definition logout (token_valid : bool) (st : State) : Result :=
  match csrf_validate_on_submit (add_user_and_csrf_to_g st) token_valid with
  | inl e => answer st [] (Uncaught e)
  | inr true =>
      answer (mkState (db st) (do_logout (session st)))
             [("User Logged Out", "message")] (Redirect "/login")
  | inr false => answer st [] (Redirect "/login")
  end.

(** [/users]; [q] is the [q] of the query string. *)
Definition list_users `{Env} (q : option string) (st : State) : Result :=
  logged_in st (λ _,
    let search := default "" q in
    let users :=
      if decide (search = "") then users (db st)
      else filter (λ u, sql_like ("%" ++ search ++ "%") (User.username u) = true)
                  (users (db st)) in
    answer st [] (Render "users/index.html" (UsersArgs users))).

(** The three profile pages that look the user up with [get_or_404]. *)
Definition show_user_page (template : string) (user_id : nat) (st : State) : Result :=
  logged_in st (λ _,
    match User_query_get (db st) user_id with
    | Some user => answer st [] (Render template (UserArgs (Some user)))
    | None => answer st [] NotFound
    end).

Definition show_user := show_user_page "users/show.html".
Definition show_following := show_user_page "users/following.html".
Definition show_followers := show_user_page "users/followers.html".

(** [/users/<user_id>/likes]: the user is looked up with [get]. *)
Definition show_favorite_warbles (user_id : nat) (st : State) : Result :=
  logged_in st (λ _,
    let user := User_query_get (db st) user_id in
    answer st [] (Render "users/liked_warbles.html" (UserArgs user))).

(** [/users/follow/<follow_id>] *)
Definition start_following (follow_id : nat) (token_valid : bool) (st : State)
    : Result :=
  gated st token_valid (λ u,
    match User_query_get (db st) follow_id with
    | None => answer st [] NotFound
    | Some followed_user =>
        if decide (followed_user = u) then
          answer st [("You can not follow yourself.", "danger")] (Redirect "/users")
        else
          answer (mkState (following_append u followed_user (db st)) (session st))
                 [] (Redirect (user_url u ++ "/following"))
    end).

(** [/users/stop-following/<follow_id>] *)
Definition stop_following (follow_id : nat) (token_valid : bool) (st : State)
    : Result :=
  gated st token_valid (λ u,
    match User_query_get (db st) follow_id with
    | None => answer st [] NotFound
    | Some followed_user =>
        match following_remove u followed_user (db st) with
        | inl e => answer st [] (Uncaught e)
        | inr d =>
            answer (mkState d (session st)) [] (Redirect (user_url u ++ "/following"))
        end
    end).

(** [/users/profile]: the attributes are set on [g.user] and committed; a
    failed commit is rolled back and the form shown again. *)
Definition profile `{Env} (form : option EditForm) (st : State) : Result :=
  logged_in st (λ u,
    let edit errors := Render "/users/edit.html" (UserFormArgs u errors) in
    match form with
    | Some f =>
        if ef_validate f then
          match User_authenticate (db st) (User.username u) (ef_password f) with
          | Some _ =>
              let edited :=
                {| User.id := User.id u;
                   User.username := ef_username f;
                   User.email := ef_email f;
                   User.password := User.password u;
                   User.image_url := py_or (ef_image_url f) DEFAULT_IMAGE_URL;
                   User.header_image_url :=
                     py_or (ef_header_image_url f) DEFAULT_HEADER_IMAGE_URL;
                   User.bio := py_or (ef_bio f) " " |} in
              match commit_update_user edited (db st) with
              | inr d => answer (mkState d (session st)) [] (Redirect (user_url u))
              | inl IntegrityError => answer st [] (edit ["Username Already Taken"])
              | inl e => answer st [] (Uncaught e)
              end
          | None => answer st [] (edit ["Bad Password"])
          end
        else answer st [] (edit (ef_errors f))
    | None => answer st [] (edit [])
    end).

(** [/users/delete] *)
Definition delete_user (token_valid : bool) (st : State) : Result :=
  gated st token_valid (λ u,
    answer (mkState (User_delete (User.id u) (db st)) (do_logout (session st)))
           [] (Redirect "/signup")).

(** [/messages/new]; [now] is the clock that stamps the message. *)
Definition add_message (form : option MessageForm) (now : Z) (st : State) : Result :=
  logged_in st (λ u,
    match form with
    | Some f =>
        if mf_validate f then
          answer (mkState (messages_append u (mf_text f) now (db st)) (session st))
                 [] (Redirect (user_url u))
        else answer st [] (Render "messages/create.html" (FormArgs (mf_errors f)))
    | None => answer st [] (Render "messages/create.html" (FormArgs []))
    end).

(** [/messages/<message_id>] *)
Definition show_message (message_id : nat) (st : State) : Result :=
  logged_in st (λ _,
    match Message_query_get (db st) message_id with
    | Some msg => answer st [] (Render "messages/show.html" (MessageArgs msg))
    | None => answer st [] NotFound
    end).

(** [/messages/<message_id>/delete]: the message is looked up first, then
    the owner is checked, then the token. *)
Definition delete_message (message_id : nat) (token_valid : bool) (st : State)
    : Result :=
  match Message_query_get (db st) message_id with
  | None => answer st [] NotFound
  | Some msg =>
      let g := add_user_and_csrf_to_g st in
      match g_user g with
      | None => unauthorized st
      | Some u =>
          if decide (Message.user_id msg ≠ User.id u) then unauthorized st
          else
            match csrf_validate_on_submit g token_valid with
            | inl e => answer st [] (Uncaught e)
            | inr true =>
                answer (mkState (Message_delete msg (db st)) (session st))
                       [] (Redirect (user_url u))
            | inr false => answer st [] Unauthorized
            end
      end
  end.

(** [/message/<message_id>/favorite]; [origin_url] is the form's field of
    that name, [None] when the form has none. *)
Definition handle_favorites (message_id : nat) (token_valid : bool)
    (origin_url : option string) (st : State) : Result :=
  gated st token_valid (λ u,
    match Message_query_get (db st) message_id with
    | None => answer st [] NotFound
    | Some msg =>
        if decide (msg ∉ liked_messages (db st) u) then
          answer (mkState (liked_messages_append u msg (db st)) (session st))
                 [] (RedirectForm origin_url)
        else
          match liked_messages_remove u msg (db st) with
          | inl e => answer st [] (Uncaught e)
          | inr d => answer (mkState d (session st)) [] (RedirectForm origin_url)
          end
    end).

(** ** The application: one request after another *)

Inductive Request :=
| Signup (form : option UserAddForm)
| Login (form : option LoginForm)
| Logout (token_valid : bool)
| ListUsers (q : option string)
| ShowUser (user_id : nat)
| ShowFollowing (user_id : nat)
| ShowFollowers (user_id : nat)
| ShowFavoriteWarbles (user_id : nat)
| StartFollowing (follow_id : nat) (token_valid : bool)
| StopFollowing (follow_id : nat) (token_valid : bool)
| Profile (form : option EditForm)
| DeleteUser (token_valid : bool)
| AddMessage (form : option MessageForm) (now : Z)
| ShowMessage (message_id : nat)
| DeleteMessage (message_id : nat) (token_valid : bool)
| HandleFavorites (message_id : nat) (token_valid : bool) (origin_url : option string)
| Homepage.

Definition handle `{Env} (r : Request) (st : State) : Result :=
  match r with
  | Signup form => signup form st
  | Login form => login form st
  | Logout tok => logout tok st
  | ListUsers q => list_users q st
  | ShowUser i => show_user i st
  | ShowFollowing i => show_following i st
  | ShowFollowers i => show_followers i st
  | ShowFavoriteWarbles i => show_favorite_warbles i st
  | StartFollowing i tok => start_following i tok st
  | StopFollowing i tok => stop_following i tok st
  | Profile form => profile form st
  | DeleteUser tok => delete_user tok st
  | AddMessage form now => add_message form now st
  | ShowMessage i => show_message i st
  | DeleteMessage i tok => delete_message i tok st
  | HandleFavorites i tok url => handle_favorites i tok url st
  | Homepage => homepage st
  end.

(** The state after a run of requests. *)
Definition run `{Env} (rs : list Request) (st : State) : State :=
  foldl (λ s r, state_after (handle r s)) st rs.

(** ** Properties of the stored tables *)

Definition no_self_follow (d : DB) : Prop :=
  Forall (λ e, Follow.follower_id e ≠ Follow.followed_id e) (follows d).

(** [u] follows [v]. *)
Definition follows_user (d : DB) (follower followed : nat) : Prop :=
  Follow.mk follower followed ∈ follows d.

(** [u] has liked [m]. *)
Definition liked (d : DB) (user_id message_id : nat) : Prop :=
  Like.mk user_id message_id ∈ likes d.

(** The owner of [msg] is the logged-in user. *)
Definition is_owner (st : State) (msg : Message.t) : Prop :=
  ∃ u, g_user (add_user_and_csrf_to_g st) = Some u ∧
       Message.user_id msg = User.id u.

(** What a request can do to the follow edges: leave them, drop some, or
    append one edge, not stored yet, between two different users. *)
Inductive follows_step (fs : list Follow.t) : list Follow.t → Prop :=
| follows_drop fs' : fs' `sublist_of` fs → follows_step fs fs'
| follows_add e :
    Follow.follower_id e ≠ Follow.followed_id e → e ∉ fs →
    follows_step fs (fs ++ [e]).

(** What a request can do to the like edges: leave them, drop some, or
    append an edge that is not there yet. *)
Inductive likes_step (ls : list Like.t) : list Like.t → Prop :=
| likes_drop ls' : ls' `sublist_of` ls → likes_step ls ls'
| likes_add e : e ∉ ls → likes_step ls (ls ++ [e]).

(** The keys, usernames and emails of the stored users are distinct, and
    the sequence is past every key it has handed out. *)
Definition users_unique (d : DB) : Prop :=
  NoDup (User.id <$> users d) ∧
  NoDup (User.username <$> users d) ∧
  NoDup (User.email <$> users d) ∧
  Forall (λ u, User.id u < users_id_seq d) (users d).

(** No row points at a row that is not stored: every message has a stored
    owner, every follow edge joins stored users, every like edge joins a
    stored user and a stored message. *)
Definition references_ok (d : DB) : Prop :=
  (∀ m, m ∈ messages d → Message.user_id m ∈ (User.id <$> users d)) ∧
  (∀ e, e ∈ follows d →
        Follow.follower_id e ∈ (User.id <$> users d) ∧
        Follow.followed_id e ∈ (User.id <$> users d)) ∧
  (∀ e, e ∈ likes d →
        Like.user_id e ∈ (User.id <$> users d) ∧
        Like.message_id e ∈ (Message.id <$> messages d)).

(** ** Classes of requests *)

(** The routes whose handler starts with the gate [not g.user]. *)
Definition behind_gate (r : Request) : bool :=
  match r with
  | Signup _ | Login _ | Logout _ | DeleteMessage _ _ | Homepage => false
  | _ => true
  end.

(** The token of the routes whose gate also validates [g.csrf_form]. *)
Definition gate_token (r : Request) : option bool :=
  match r with
  | StartFollowing _ tok | StopFollowing _ tok | DeleteUser tok
  | HandleFavorites _ tok _ => Some tok
  | _ => None
  end.

(** A GET: a route that only reads, or a form route without a submitted
    form. *)
Definition is_GET (r : Request) : bool :=
  match r with
  | Signup None | Login None | Profile None | AddMessage None _ => true
  | ListUsers _ | ShowUser _ | ShowFollowing _ | ShowFollowers _
  | ShowFavoriteWarbles _ | ShowMessage _ | Homepage => true
  | _ => false
  end.

(** The routes that call [do_login] or [do_logout]. *)
Definition writes_session (r : Request) : bool :=
  match r with
  | Signup _ | Login _ | Logout _ | DeleteUser _ => true
  | _ => false
  end.

(** The request names, with a valid token where the route asks for one, an
    id that [get_or_404] does not find. *)
Definition unknown_id (r : Request) (d : DB) : Prop :=
  match r with
  | ShowUser i | ShowFollowing i | ShowFollowers i
  | StartFollowing i true | StopFollowing i true => User_query_get d i = None
  | ShowMessage i | HandleFavorites i true _ | DeleteMessage i _ =>
      Message_query_get d i = None
  | _ => False
  end.

(** A test environment and a small store, for the examples below. *)
#[global] Instance test_env : Env := {|
  generate_password_hash := λ p, "hash:" ++ p;
  check_password_hash := λ h p, bool_decide (h = "hash:" ++ p);
  DEFAULT_IMAGE_URL := "/static/images/default-pic.png";
  DEFAULT_HEADER_IMAGE_URL := "/static/images/warbler-hero.jpg";
  image_url_default := "/static/images/default-pic.png";
  header_image_url_default := "/static/images/warbler-hero.jpg";
  bio_default := "";
  sql_like := λ _ _, true
|}.

Definition u1 : User.t :=
  User.mk 1 "u1" "u1@email.com" "hash:password" "" "" "".
Definition u2 : User.t :=
  User.mk 2 "u2" "u2@email.com" "hash:password" "" "" "".
Definition m1 : Message.t := Message.mk 1 "m1-text" 10 1.
Definition m2 : Message.t := Message.mk 2 "m2-text" 20 2.

Definition test_db : DB :=
  mkDB [u1; u2] [m1; m2] [Follow.mk 1 2] [Like.mk 1 2] 3 3.

(** [u1] is logged in. *)
Definition test_state : State :=
  mkState test_db {[ CURR_USER_KEY := 1 ]}.

(** Nobody is logged in. *)
Definition anon_state : State := mkState test_db ∅.

(** [u2] is logged in. *)
Definition test_state2 : State :=
  mkState test_db {[ CURR_USER_KEY := 2 ]}.

(** A valid signup form that asks for the username of [u1]. *)
Definition duplicate_form : UserAddForm :=
  Build_UserAddForm true [] "u1" "secret" "other@email.com" "".

(** A valid edit form of [u1] that asks for the username of [u2]. *)
Definition taken_edit_form : EditForm :=
  Build_EditForm true [] "u2" "u1@email.com" "" "" "" "password".

(** The same form with a wrong password. *)
Definition bad_password_form : EditForm :=
  Build_EditForm true [] "u2" "u1@email.com" "" "" "" "guess".

(** A valid message form. *)
Definition hello_form : MessageForm := Build_MessageForm true [] "Hello".

(** A valid signup form for a new user. *)
Definition new_user_form : UserAddForm :=
  Build_UserAddForm true [] "u3" "secret" "u3@email.com" "".

(** * Properties *)

#[global] Instance newer_first_total : Total newer_first.
Proof. intros x y. unfold newer_first. lia. Qed.

#[global] Instance newer_first_trans : Transitive newer_first.
Proof. intros x y z. unfold newer_first. lia. Qed.

(** ** Lookups *)

Lemma User_query_get_Some d i u :
  User_query_get d i = Some u → u ∈ users d ∧ User.id u = i.
Proof.
  unfold User_query_get. intros Hq.
  apply fmap_Some in Hq as ([n v] & Hfind & ->).
  apply list_find_Some in Hfind as (Hl & Hv & _).
  split; [by eapply list_elem_of_lookup_2 | done].
Qed.

Lemma User_query_get_None d i :
  User_query_get d i = None ↔ ∀ u, u ∈ users d → User.id u ≠ i.
Proof.
  unfold User_query_get. rewrite fmap_None, list_find_None, Forall_forall. done.
Qed.

Lemma Message_query_get_Some d i m :
  Message_query_get d i = Some m → m ∈ messages d ∧ Message.id m = i.
Proof.
  unfold Message_query_get. intros Hq.
  apply fmap_Some in Hq as ([n v] & Hfind & ->).
  apply list_find_Some in Hfind as (Hl & Hv & _).
  split; [by eapply list_elem_of_lookup_2 | done].
Qed.

Lemma Message_query_get_None d i :
  Message_query_get d i = None ↔ ∀ m, m ∈ messages d → Message.id m ≠ i.
Proof.
  unfold Message_query_get. rewrite fmap_None, list_find_None, Forall_forall. done.
Qed.

(** Two users found by their keys are the same row exactly when the keys
    are the same: [==] on rows is [==] on keys. *)
Lemma User_query_get_eq d i j u v :
  User_query_get d i = Some u → User_query_get d j = Some v →
  u = v ↔ i = j.
Proof.
  intros Hu Hv. split.
  - intros ->. apply User_query_get_Some in Hu as [_ <-].
    by apply User_query_get_Some in Hv as [_ <-].
  - intros ->. congruence.
Qed.

(** ** The gate *)

Lemma g_user_Some st u :
  g_user (add_user_and_csrf_to_g st) = Some u →
  g_csrf_form (add_user_and_csrf_to_g st) = true ∧
  session st !! CURR_USER_KEY = Some (User.id u) ∧
  User_query_get (db st) (User.id u) = Some u.
Proof.
  unfold add_user_and_csrf_to_g.
  destruct (session st !! CURR_USER_KEY) as [uid|] eqn:Hs; simpl; [|done].
  intros Hq. destruct (User_query_get_Some _ _ _ Hq) as [_ <-]. done.
Qed.

Lemma g_user_None_anonymous st :
  session st !! CURR_USER_KEY = None →
  g_user (add_user_and_csrf_to_g st) = None.
Proof. unfold add_user_and_csrf_to_g. by intros ->. Qed.

Lemma gated_Some st tok k u :
  g_user (add_user_and_csrf_to_g st) = Some u →
  gated st tok k = if tok then k u else unauthorized st.
Proof.
  intros Hu. unfold gated, csrf_validate_on_submit. rewrite Hu.
  apply g_user_Some in Hu as (-> & _). done.
Qed.

Lemma gated_None st tok k :
  g_user (add_user_and_csrf_to_g st) = None → gated st tok k = unauthorized st.
Proof. intros Hu. unfold gated. by rewrite Hu. Qed.

Lemma logged_in_Some st k u :
  g_user (add_user_and_csrf_to_g st) = Some u → logged_in st k = k u.
Proof. intros Hu. unfold logged_in. by rewrite Hu. Qed.

Lemma do_logout_delete s : do_logout s = delete CURR_USER_KEY s.
Proof.
  unfold do_logout. case_decide as Hs; [done|].
  symmetry. apply delete_id. by apply eq_None_not_Some.
Qed.

Lemma do_logout_lookup s : do_logout s !! CURR_USER_KEY = None.
Proof. rewrite do_logout_delete. apply lookup_delete_eq. Qed.

Lemma do_login_lookup u s : do_login u s !! CURR_USER_KEY = Some (User.id u).
Proof. apply lookup_insert_eq. Qed.

(** ** Homepage *)

Lemma following_edge d u v :
  v ∈ following d u → follows_user d (User.id u) (User.id v).
Proof.
  unfold following, follows_user. intros Hv.
  apply list_elem_of_omap in Hv as ([a b] & He & Hq). simpl in Hq.
  case_decide as Ha; [|done]. apply User_query_get_Some in Hq as [_ Hb].
  simpl in *. by subst.
Qed.

(** C1: for a logged-in user the home feed holds only stored messages
    written by the user or by a user they follow, lists them newest first
    by timestamp, and has at most 100 entries. *)
Theorem homepage_feed st u :
  g_user (add_user_and_csrf_to_g st) = Some u →
  ∃ feed,
    response (homepage st) = Render "home.html" (MessagesArgs feed) ∧
    (∀ m, m ∈ feed →
       m ∈ messages (db st) ∧
       (Message.user_id m = User.id u ∨
        follows_user (db st) (User.id u) (Message.user_id m))) ∧
    StronglySorted newer_first feed ∧
    (length feed ≤ 100)%nat.
Proof.
  intros Hu. exists (home_messages (db st) u). unfold homepage. rewrite Hu.
  split; [done|]. unfold home_messages. split_and!.
  - intros m Hm. apply subseteq_take in Hm.
    rewrite merge_sort_Permutation in Hm.
    apply list_elem_of_filter in Hm as [Hid Hm]. split; [done|].
    apply elem_of_app in Hid as [Hid|Hid].
    + right. apply list_elem_of_fmap in Hid as (v & -> & Hv).
      by apply following_edge.
    + left. by apply list_elem_of_singleton in Hid.
  - eapply StronglySorted_app_1_l. rewrite take_drop.
    apply StronglySorted_merge_sort; apply _.
  - rewrite length_take. lia.
Qed.

Lemma homepage_feed_witness :
  g_user (add_user_and_csrf_to_g test_state) = Some u1 ∧
  ∃ feed,
    response (homepage test_state) = Render "home.html" (MessagesArgs feed) ∧
    (∀ m, m ∈ feed →
       m ∈ messages (db test_state) ∧
       (Message.user_id m = User.id u1 ∨
        follows_user (db test_state) (User.id u1) (Message.user_id m))) ∧
    StronglySorted newer_first feed ∧
    (length feed ≤ 100)%nat.
Proof.
  split; [vm_compute; reflexivity|].
  apply (homepage_feed test_state u1). vm_compute. reflexivity.
Defined.

(** ** Signup *)

Lemma commit_new_user_taken pending d :
  taken d None (pending (users_id_seq d)) →
  ∃ d1, commit_new_user pending d = (d1, inl IntegrityError) ∧ same_rows d1 d.
Proof.
  intros Ht. unfold commit_new_user. rewrite decide_True by done.
  eexists. split; [done|]. by repeat split.
Qed.

Lemma commit_new_user_cases pending d :
  (∃ d1, commit_new_user pending d = (d1, inl IntegrityError) ∧ same_rows d1 d) ∨
  (∃ d1 user, commit_new_user pending d = (d1, inr user) ∧
     user = pending (users_id_seq d) ∧ ¬ taken d None user ∧
     users d1 = (users d ++ [user])%list ∧ messages d1 = messages d ∧
     follows d1 = follows d ∧ likes d1 = likes d).
Proof.
  unfold commit_new_user. case_decide as Ht.
  - left. eexists. split; [done|]. by repeat split.
  - right. eexists _, _. by repeat split.
Qed.

(** C2: a signup whose username or email is that of a stored user fails:
    no row is written (the failed transaction is rolled back, the stored
    tables are those the request met, so the original account is
    unchanged), nobody is logged in, and the signup form is shown again,
    with the notice "Username already taken" when the form itself
    validated and with the form's own errors when it did not. *)
Theorem signup_duplicate `{Env} f st v :
  v ∈ users (db st) →
  User.username v = uaf_username f ∨ User.email v = uaf_email f →
  let r := signup (Some f) st in
  same_rows (db (state_after r)) (db st) ∧
  v ∈ users (db (state_after r)) ∧
  session (state_after r) !! CURR_USER_KEY = None ∧
  response r = Render "users/signup.html" (FormArgs (uaf_errors f)) ∧
  flashed r = if uaf_validate f then [("Username already taken", "danger")] else [].
Proof.
  intros Hv Hdup r. subst r. unfold signup.
  destruct (uaf_validate f); simpl.
  - set (pending := User_signup _ _ _ _).
    destruct (commit_new_user_taken pending (db st)) as (d1 & -> & Hrows).
    { unfold taken. apply Exists_exists. exists v. split; [done|].
      split; [done|]. subst pending. simpl. done. }
    simpl. split_and!; try done.
    + destruct Hrows as (-> & _). done.
    + apply do_logout_lookup.
  - split_and!; try done. apply do_logout_lookup.
Qed.

Lemma signup_duplicate_witness :
  u1 ∈ users (db anon_state) ∧
  (User.username u1 = uaf_username duplicate_form ∨
   User.email u1 = uaf_email duplicate_form) ∧
  same_rows (db (state_after (signup (Some duplicate_form) anon_state)))
            (db anon_state) ∧
  flashed (signup (Some duplicate_form) anon_state) =
    [("Username already taken", "danger")].
Proof.
  assert (Hin : u1 ∈ users (db anon_state)) by (vm_compute; left).
  assert (Hdup : User.username u1 = uaf_username duplicate_form ∨
                 User.email u1 = uaf_email duplicate_form)
    by (left; reflexivity).
  split; [exact Hin|]. split; [exact Hdup|].
  destruct (signup_duplicate duplicate_form anon_state u1 Hin Hdup)
    as (Hrows & _ & _ & _ & Hflash).
  split; [exact Hrows | exact Hflash].
Defined.

(** C10: every request to [/signup] starts by removing the current-user
    key from the session.  A GET leaves the session without the key, so a
    logged-in user who loads the page is logged out; after any signup
    request the key is absent or names the user the request has just
    appended to the users. *)
Theorem signup_session `{Env} form st :
  let r := signup form st in
  let s := session (state_after r) in
  let logged_out := do_logout (session st) in
  logged_out !! CURR_USER_KEY = None ∧
  state_after (signup None st) = mkState (db st) logged_out ∧
  (s = logged_out ∨
   ∃ user, s = do_login user logged_out ∧
           s !! CURR_USER_KEY = Some (User.id user) ∧
           users (db (state_after r)) = (users (db st) ++ [user])%list).
Proof.
  intros r s logged_out. subst r s logged_out.
  split; [apply do_logout_lookup|]. split; [done|].
  unfold signup. destruct form as [f|]; [|by left].
  destruct (uaf_validate f); [|by left].
  set (pending := User_signup _ _ _ _).
  destruct (commit_new_user_cases pending (db st))
    as [(d1 & -> & _)|(d1 & user & -> & _ & _ & Husers & _)]; simpl.
  - by left.
  - right. exists user. split_and!; [done|apply do_login_lookup|done].
Qed.

(** ** Follow and unfollow *)

Lemma list_remove_None {A} `{EqDecision A} (x : A) l :
  list_remove x l = None ↔ x ∉ l.
Proof.
  induction l as [|y l IH]; simpl.
  - split; [intros _; apply not_elem_of_nil | done].
  - case_decide as Hxy.
    + subst. split; [done|]. intros []. left.
    + rewrite fmap_None, IH, not_elem_of_cons. tauto.
Qed.

Lemma list_remove_sublist {A} `{EqDecision A} (x : A) l l' :
  list_remove x l = Some l' → l' `sublist_of` l.
Proof.
  revert l'. induction l as [|y l IH]; intros l'; simpl; [done|].
  case_decide.
  - intros [= <-]. by apply sublist_cons.
  - intros (k & ? & ->)%fmap_Some. apply sublist_skip. by apply IH.
Qed.

(** Removing what has just been appended to a list without it gives the
    list back. *)
Lemma list_remove_snoc {A} `{EqDecision A} (x : A) l :
  x ∉ l → list_remove x (l ++ [x]) = Some l.
Proof.
  induction l as [|y l IH]; simpl; intros Hx.
  - by rewrite decide_True.
  - apply not_elem_of_cons in Hx as [Hxy Hx].
    rewrite decide_False by done. by rewrite IH.
Qed.

Lemma list_remove_NoDup_gone {A} `{EqDecision A} (x : A) l l' :
  NoDup l → list_remove x l = Some l' → x ∉ l'.
Proof.
  revert l'. induction l as [|y l IH]; intros l'; simpl; [done|].
  rewrite NoDup_cons. intros [Hy Hl]. case_decide.
  - intros [= <-]. by subst.
  - intros (k & Hk & ->)%fmap_Some. apply not_elem_of_cons. split; [done|].
    by apply IH.
Qed.

Lemma stop_following_not_followed follow_id st u followed_user :
  g_user (add_user_and_csrf_to_g st) = Some u →
  User_query_get (db st) follow_id = Some followed_user →
  ¬ follows_user (db st) (User.id u) (User.id followed_user) →
  stop_following follow_id true st = answer st [] (Uncaught ValueError).
Proof.
  intros Hu Hq Hnot. unfold stop_following. rewrite (gated_Some _ _ _ _ Hu), Hq.
  unfold following_remove.
  by rewrite (proj2 (list_remove_None _ _) Hnot).
Qed.

(** C3: [u2] is logged in, [u1] exists and [u2] does not follow [u1];
    unfollowing [u1] is answered by an uncaught [ValueError]: the request
    does not complete without error.  The edges are left as they were. *)
Theorem stop_following_absent_edge_raises :
  g_user (add_user_and_csrf_to_g test_state2) = Some u2 ∧
  User_query_get (db test_state2) 1 = Some u1 ∧
  ¬ follows_user (db test_state2) 2 1 ∧
  response (stop_following 1 true test_state2) = Uncaught ValueError ∧
  state_after (stop_following 1 true test_state2) = test_state2.
Proof.
  assert (Hn : ¬ follows_user (db test_state2) 2 1).
  { unfold follows_user. simpl. intros He%list_elem_of_singleton. done. }
  split_and!; [by vm_compute..|exact Hn| |].
  - by rewrite (stop_following_not_followed 1 test_state2 u2 u1).
  - by rewrite (stop_following_not_followed 1 test_state2 u2 u1).
Qed.

(** A user found by their key is in the [following] collection exactly
    when the edge is stored. *)
Lemma following_member d u v :
  User_query_get d (User.id v) = Some v →
  v ∈ following d u ↔ follows_user d (User.id u) (User.id v).
Proof.
  intros Hq. split; [apply following_edge|].
  intros He. unfold following. apply list_elem_of_omap.
  eexists. split; [exact He|]. simpl. by rewrite decide_True.
Qed.

Lemma following_append_member u v d :
  v ∈ following d u → following_append u v d = d.
Proof. intros Hin. unfold following_append. by rewrite decide_True. Qed.

Lemma following_append_new u v d :
  ¬ follows_user d (User.id u) (User.id v) →
  following_append u v d =
    set_follows (follows d ++ [Follow.mk (User.id u) (User.id v)])%list d.
Proof.
  intros Hnot. unfold following_append. rewrite decide_False; [done|].
  intros Hin. by apply Hnot, following_edge.
Qed.

(** The commit of an append touches the follow edges only. *)
Lemma following_append_frame u v d :
  users (following_append u v d) = users d ∧
  messages (following_append u v d) = messages d ∧
  likes (following_append u v d) = likes d ∧
  users_id_seq (following_append u v d) = users_id_seq d ∧
  messages_id_seq (following_append u v d) = messages_id_seq d.
Proof. unfold following_append. by case_decide. Qed.

(** ** Favorites *)

(** The membership test of the handler is the presence of the like edge. *)
Lemma liked_messages_edge d u msg :
  Message_query_get d (Message.id msg) = Some msg →
  msg ∈ liked_messages d u ↔ liked d (User.id u) (Message.id msg).
Proof.
  intros Hq. unfold liked_messages, liked. rewrite list_elem_of_omap. split.
  - intros ([a b] & He & Hm). simpl in Hm. case_decide as Ha; [|done].
    apply Message_query_get_Some in Hm as [_ Hb]. simpl in *. by subst.
  - intros He. eexists. split; [exact He|]. simpl. by rewrite decide_True.
Qed.

Lemma set_likes_id d : set_likes (likes d) d = d.
Proof. by destruct d. Qed.

Lemma set_likes_set_likes ls ls' d : set_likes ls (set_likes ls' d) = set_likes ls d.
Proof. done. Qed.

Lemma handle_favorites_absent message_id url st u msg :
  g_user (add_user_and_csrf_to_g st) = Some u →
  Message_query_get (db st) message_id = Some msg →
  ¬ liked (db st) (User.id u) message_id →
  handle_favorites message_id true url st =
    answer (mkState (set_likes (likes (db st) ++ [Like.mk (User.id u) message_id])%list
                               (db st))
                    (session st))
           [] (RedirectForm url).
Proof.
  intros Hu Hq Hnot. unfold handle_favorites.
  rewrite (gated_Some _ _ _ _ Hu), Hq.
  destruct (Message_query_get_Some _ _ _ Hq) as [_ <-].
  rewrite decide_True; [done|]. by rewrite liked_messages_edge.
Qed.

Lemma handle_favorites_present message_id url st u msg :
  g_user (add_user_and_csrf_to_g st) = Some u →
  Message_query_get (db st) message_id = Some msg →
  liked (db st) (User.id u) message_id →
  ∃ ls, list_remove (Like.mk (User.id u) message_id) (likes (db st)) = Some ls ∧
        handle_favorites message_id true url st =
          answer (mkState (set_likes ls (db st)) (session st)) [] (RedirectForm url).
Proof.
  intros Hu Hq Hin. unfold handle_favorites.
  rewrite (gated_Some _ _ _ _ Hu), Hq.
  destruct (Message_query_get_Some _ _ _ Hq) as [_ <-].
  rewrite decide_False; [|by rewrite liked_messages_edge; auto].
  unfold liked_messages_remove.
  destruct (list_remove _ (likes (db st))) as [ls|] eqn:Hrm.
  - by exists ls.
  - by apply list_remove_None in Hrm.
Qed.

(** C5: for a logged-in user and a stored message, one favorite request
    adds the like edge when it is absent and removes it when it is
    present; two requests in a row on a message that is not a favorite
    leave it not a favorite, with the state they started from (and two
    requests on a favorite leave it a favorite). *)
Theorem favorite_toggle message_id url url' st u msg :
  g_user (add_user_and_csrf_to_g st) = Some u →
  Message_query_get (db st) message_id = Some msg →
  NoDup (likes (db st)) →
  let toggle url s := state_after (handle_favorites message_id true url s) in
  (¬ liked (db st) (User.id u) message_id →
     liked (db (toggle url st)) (User.id u) message_id ∧
     ¬ liked (db (toggle url' (toggle url st))) (User.id u) message_id ∧
     toggle url' (toggle url st) = st) ∧
  (liked (db st) (User.id u) message_id →
     ¬ liked (db (toggle url st)) (User.id u) message_id ∧
     liked (db (toggle url' (toggle url st))) (User.id u) message_id).
Proof.
  intros Hu Hq Hnd toggle. subst toggle. simpl. split.
  - intros Hnot. rewrite (handle_favorites_absent _ _ _ _ _ Hu Hq Hnot). simpl.
    set (st1 := mkState _ _).
    assert (Hin : liked (db st1) (User.id u) message_id).
    { unfold liked. simpl. apply elem_of_app. right. left. }
    split; [exact Hin|].
    destruct (handle_favorites_present message_id url' st1 u msg Hu Hq Hin)
      as (ls & Hrm & ->).
    simpl in Hrm. rewrite list_remove_snoc in Hrm by exact Hnot.
    injection Hrm as <-. simpl.
    rewrite set_likes_set_likes, set_likes_id. split; [exact Hnot|].
    by destruct st.
  - intros Hin.
    destruct (handle_favorites_present message_id url st u msg Hu Hq Hin)
      as (ls & Hrm & ->).
    simpl. set (st1 := mkState _ _).
    assert (Hnot : ¬ liked (db st1) (User.id u) message_id).
    { unfold liked. simpl. by eapply list_remove_NoDup_gone. }
    split; [exact Hnot|].
    rewrite (handle_favorites_absent message_id url' st1 u msg Hu Hq Hnot).
    unfold liked. simpl. apply elem_of_app. right. left.
Qed.

Lemma favorite_toggle_witness :
  g_user (add_user_and_csrf_to_g test_state) = Some u1 ∧
  Message_query_get (db test_state) 1 = Some m1 ∧
  NoDup (likes (db test_state)) ∧
  state_after (handle_favorites 1 true None
                 (state_after (handle_favorites 1 true None test_state))) =
    test_state.
Proof.
  assert (Hu : g_user (add_user_and_csrf_to_g test_state) = Some u1)
    by (vm_compute; reflexivity).
  assert (Hq : Message_query_get (db test_state) 1 = Some m1)
    by (vm_compute; reflexivity).
  assert (Hnd : NoDup (likes (db test_state)))
    by (apply NoDup_singleton).
  assert (Hnot : ¬ liked (db test_state) (User.id u1) 1).
  { unfold liked. simpl. intros He%list_elem_of_singleton. discriminate He. }
  split; [exact Hu|]. split; [exact Hq|]. split; [exact Hnd|].
  destruct (favorite_toggle 1 None None test_state u1 m1 Hu Hq Hnd) as [Habs _].
  destruct (Habs Hnot) as (_ & _ & Hback). exact Hback.
Defined.

(** ** Deleting a message *)

Lemma Message_delete_gone msg d :
  Message_query_get (Message_delete msg d) (Message.id msg) = None.
Proof.
  apply Message_query_get_None. simpl. intros m Hm.
  by apply list_elem_of_filter in Hm as [? _].
Qed.

(** C6, as the code has it: a stored message is deleted only on a request
    of its owner that carries a valid token.  A request of anybody else
    (nobody logged in, or another user) leaves everything in place and is
    answered by a redirect with the flashed warning; a request of the owner
    with an invalid token leaves everything in place too, flashes nothing
    and is answered by [Unauthorized], not by a redirect. *)
Theorem delete_message_cases message_id token_valid st msg :
  Message_query_get (db st) message_id = Some msg →
  let r := delete_message message_id token_valid st in
  (Message_query_get (db (state_after r)) message_id ≠ Some msg →
     is_owner st msg ∧ token_valid = true) ∧
  (¬ is_owner st msg →
     state_after r = st ∧ flashed r = [unauthorized_flash] ∧
     response r = Redirect "/") ∧
  (is_owner st msg → token_valid = false →
     state_after r = st ∧ flashed r = [] ∧ response r = Unauthorized) ∧
  (is_owner st msg → token_valid = true →
     Message_query_get (db (state_after r)) message_id = None ∧
     ∃ u, g_user (add_user_and_csrf_to_g st) = Some u ∧
          response r = Redirect (user_url u)).
Proof.
  intros Hq r. subst r. unfold delete_message, is_owner. rewrite Hq.
  destruct (Message_query_get_Some _ _ _ Hq) as [_ Hid].
  destruct (g_user (add_user_and_csrf_to_g st)) as [u|] eqn:Hu.
  - destruct (g_user_Some _ _ Hu) as (Hcsrf & _).
    unfold csrf_validate_on_submit. rewrite Hcsrf.
    case_decide as Hown.
    + simpl. split_and!.
      * intros Hgone. by destruct Hgone.
      * done.
      * intros (v & [= <-] & Hv). done.
      * intros (v & [= <-] & Hv). done.
    + destruct token_valid; simpl.
      * split_and!.
        -- intros _. split; [by exists u | done].
        -- intros Hno. destruct Hno. by exists u.
        -- done.
        -- intros _ _. split; [|by exists u].
           rewrite <- Hid. apply Message_delete_gone.
      * split_and!.
        -- intros Hgone. by destruct Hgone.
        -- intros Hno. destruct Hno. by exists u.
        -- done.
        -- done.
  - simpl. split_and!.
    + intros Hgone. by destruct Hgone.
    + done.
    + by intros (v & [=] & _).
    + by intros (v & [=] & _).
Qed.

Lemma delete_message_cases_witness :
  Message_query_get (db test_state) 1 = Some m1 ∧
  is_owner test_state m1 ∧
  Message_query_get (db (state_after (delete_message 1 true test_state))) 1 = None ∧
  state_after (delete_message 1 false test_state) = test_state.
Proof.
  assert (Hq : Message_query_get (db test_state) 1 = Some m1)
    by (vm_compute; reflexivity).
  assert (Hown : is_owner test_state m1).
  { exists u1. split; vm_compute; reflexivity. }
  split; [exact Hq|]. split; [exact Hown|]. split.
  - destruct (delete_message_cases 1 true test_state m1 Hq) as (_ & _ & _ & Hdel).
    destruct (Hdel Hown eq_refl) as [Hgone _]. exact Hgone.
  - destruct (delete_message_cases 1 false test_state m1 Hq) as (_ & _ & Hbad & _).
    destruct (Hbad Hown eq_refl) as [Hst _]. exact Hst.
Defined.

(** C6 as stated fails: [u1] owns [m1]; the delete request of [u1] with an
    invalid token leaves [m1] in place but is answered by [Unauthorized]:
    no redirect, and no warning is flashed. *)
Lemma delete_message_invalid_token_raises :
  is_owner test_state m1 ∧
  Message_query_get (db (state_after (delete_message 1 false test_state))) 1
    = Some m1 ∧
  response (delete_message 1 false test_state) = Unauthorized ∧
  (∀ location, response (delete_message 1 false test_state) ≠ Redirect location) ∧
  flashed (delete_message 1 false test_state) = [].
Proof.
  split; [exists u1; split; vm_compute; reflexivity|].
  assert (Hr : delete_message 1 false test_state = answer test_state [] Unauthorized)
    by (vm_compute; reflexivity).
  rewrite Hr. simpl. split_and!; done.
Qed.

(** ** Deleting a user *)

(** C7: the account-delete request of a logged-in user (with its token)
    removes the user's row; with it go the messages the user wrote, the
    follow edges from and to the user, the like edges of the user and the
    like edges on the user's messages; the rows of the others stay; the
    session loses the current-user key and the answer is a redirect to
    [/signup]. *)
Theorem delete_user_cascade st u :
  g_user (add_user_and_csrf_to_g st) = Some u →
  let r := delete_user true st in
  let d := db (state_after r) in
  User_query_get d (User.id u) = None ∧
  (∀ m, m ∈ messages d ↔ m ∈ messages (db st) ∧ Message.user_id m ≠ User.id u) ∧
  (∀ e, e ∈ follows d ↔
        e ∈ follows (db st) ∧
        Follow.follower_id e ≠ User.id u ∧ Follow.followed_id e ≠ User.id u) ∧
  (∀ e, e ∈ likes d ↔
        e ∈ likes (db st) ∧ Like.user_id e ≠ User.id u ∧
        ∀ m, m ∈ messages (db st) → Message.id m = Like.message_id e →
             Message.user_id m ≠ User.id u) ∧
  (∀ v, v ∈ users d ↔ v ∈ users (db st) ∧ User.id v ≠ User.id u) ∧
  session (state_after r) !! CURR_USER_KEY = None ∧
  flashed r = [] ∧
  response r = Redirect "/signup".
Proof.
  intros Hu r d. subst d r. unfold delete_user.
  rewrite (gated_Some _ _ _ _ Hu). simpl. split_and!.
  - apply User_query_get_None. simpl. intros v Hv.
    by apply list_elem_of_filter in Hv as [? _].
  - intros m. rewrite list_elem_of_filter. tauto.
  - intros e. rewrite list_elem_of_filter. tauto.
  - intros e. rewrite list_elem_of_filter. split.
    + intros [[Hne Hmsg] He]. split_and!; [done..|].
      intros m Hm Hid Hown. apply Hmsg. apply list_elem_of_fmap.
      exists m. split; [done|]. by apply list_elem_of_filter.
    + intros (He & Hne & Hmsg). split_and!; [done| |done].
      intros (m & Hid & Hm)%list_elem_of_fmap.
      apply list_elem_of_filter in Hm as [Hown Hm]. by eapply Hmsg.
  - intros v. rewrite list_elem_of_filter. tauto.
  - apply do_logout_lookup.
  - done.
  - done.
Qed.

Lemma delete_user_cascade_witness :
  g_user (add_user_and_csrf_to_g test_state) = Some u1 ∧
  User_query_get (db (state_after (delete_user true test_state))) 1 = None ∧
  session (state_after (delete_user true test_state)) !! CURR_USER_KEY = None ∧
  response (delete_user true test_state) = Redirect "/signup".
Proof.
  assert (Hu : g_user (add_user_and_csrf_to_g test_state) = Some u1)
    by (vm_compute; reflexivity).
  split; [exact Hu|].
  destruct (delete_user_cascade test_state u1 Hu)
    as (Hgone & _ & _ & _ & _ & Hs & _ & Hr).
  split; [exact Hgone|]. split; [exact Hs | exact Hr].
Defined.

(** ** Reasoning through the gates *)

Lemma gated_elim (P : Result → Prop) st tok k :
  P (unauthorized st) →
  (∀ e, P (answer st [] (Uncaught e))) →
  (∀ u, g_user (add_user_and_csrf_to_g st) = Some u → P (k u)) →
  P (gated st tok k).
Proof.
  intros Hun Hexn Hk. unfold gated.
  destruct (g_user _) as [u|] eqn:Hu; [|done].
  destruct (csrf_validate_on_submit _ _) as [e|[]]; auto.
Qed.

Lemma logged_in_elim (P : Result → Prop) st k :
  P (unauthorized st) →
  (∀ u, g_user (add_user_and_csrf_to_g st) = Some u → P (k u)) →
  P (logged_in st k).
Proof.
  intros Hun Hk. unfold logged_in.
  destruct (g_user _) as [u|] eqn:Hu; auto.
Qed.

(** Enter the handler behind a gate; the rejections change nothing. *)
Ltac through_gate :=
  first [ apply gated_elim; [done..|] | apply logged_in_elim; [done|] ];
  let u := fresh "u" in let Hu := fresh "Hu" in intros u Hu.

Lemma follows_step_refl fs : follows_step fs fs.
Proof. by apply follows_drop. Qed.

#[local] Hint Resolve follows_step_refl : core.

Lemma handle_follows_step `{Env} r st :
  follows_step (follows (db st)) (follows (db (state_after (handle r st)))).
Proof.
  destruct r; simpl.
  - unfold signup. destruct form as [f|]; [|done].
    destruct (uaf_validate f); [|done].
    set (pending := User_signup _ _ _ _).
    destruct (commit_new_user_cases pending (db st))
      as [(d1 & -> & _ & _ & Hf & _)|(d1 & user & -> & _ & _ & _ & _ & Hf & _)];
      simpl; rewrite Hf; done.
  - unfold login. destruct form as [f|]; [|done].
    destruct (lf_validate f); [|done]. by destruct (User_authenticate _ _ _).
  - unfold logout. by destruct (csrf_validate_on_submit _ _) as [e|[]].
  - unfold list_users. by through_gate.
  - unfold show_user, show_user_page. through_gate.
    by destruct (User_query_get _ _).
  - unfold show_following, show_user_page. through_gate.
    by destruct (User_query_get _ _).
  - unfold show_followers, show_user_page. through_gate.
    by destruct (User_query_get _ _).
  - unfold show_favorite_warbles. by through_gate.
  - unfold start_following. through_gate.
    destruct (User_query_get (db st) follow_id) as [v|] eqn:Hv; [|done].
    case_decide as Hvu; [done|]. simpl.
    destruct (User_query_get_Some _ _ _ Hv) as [_ Hid].
    unfold following_append. case_decide as Hmem; [done|]. simpl.
    apply follows_add; simpl.
    + destruct (g_user_Some _ _ Hu) as (_ & _ & Hq).
      intros Heq. apply Hvu. symmetry. rewrite <- Hid in Hv.
      by apply (User_query_get_eq _ _ _ _ _ Hq Hv).
    + intros He. apply Hmem. apply following_member; [by rewrite Hid|done].
  - unfold stop_following. through_gate.
    destruct (User_query_get (db st) follow_id) as [v|]; [|done].
    unfold following_remove.
    destruct (list_remove _ (follows (db st))) as [fs|] eqn:Hrm; [|done].
    simpl. apply follows_drop. by eapply list_remove_sublist.
  - unfold profile. through_gate.
    destruct form as [f|]; [|done]. destruct (ef_validate f); [|done].
    destruct (User_authenticate _ _ _); [|done].
    unfold commit_update_user. by case_decide.
  - unfold delete_user. through_gate. simpl.
    apply follows_drop, sublist_filter.
  - unfold add_message. through_gate.
    destruct form as [f|]; [|done]. by destruct (mf_validate f).
  - unfold show_message. through_gate. by destruct (Message_query_get _ _).
  - unfold delete_message. destruct (Message_query_get _ _) as [msg|]; [|done].
    destruct (g_user _) as [u|]; [|done]. case_decide; [done|].
    by destruct (csrf_validate_on_submit _ _) as [e|[]].
  - unfold handle_favorites. through_gate.
    destruct (Message_query_get _ _) as [msg|]; [|done].
    case_decide; [done|]. unfold liked_messages_remove.
    by destruct (list_remove _ (likes (db st))).
  - unfold homepage. by destruct (g_user _).
Qed.

Lemma no_self_follow_step `{Env} r st :
  no_self_follow (db st) → no_self_follow (db (state_after (handle r st))).
Proof.
  unfold no_self_follow. intros Hinv.
  destruct (handle_follows_step r st) as [fs' Hsub|e He _].
  - apply Forall_forall. intros e He. rewrite Forall_forall in Hinv.
    apply Hinv. by eapply elem_of_sublist.
  - apply Forall_app. split; [done|]. by apply Forall_singleton.
Qed.

Lemma no_self_follow_run `{Env} rs st :
  no_self_follow (db st) → no_self_follow (db (run rs st)).
Proof.
  unfold run. revert st. induction rs as [|r rs IH]; intros st Hinv; [done|].
  simpl. apply IH. by apply no_self_follow_step.
Qed.

Lemma follows_NoDup_run `{Env} rs st :
  NoDup (follows (db st)) → NoDup (follows (db (run rs st))).
Proof.
  unfold run. revert st. induction rs as [|r rs IH]; intros st Hnd; [done|].
  simpl. apply IH. destruct (handle_follows_step r st) as [fs' Hsub|e _ Hnew].
  - by eapply sublist_NoDup.
  - apply NoDup_app. split_and!; [done| |apply NoDup_singleton].
    intros x Hx ->%list_elem_of_singleton. done.
Qed.

Lemma start_following_already follow_id token_valid st u :
  g_user (add_user_and_csrf_to_g st) = Some u →
  follows_user (db st) (User.id u) follow_id →
  state_after (start_following follow_id token_valid st) = st.
Proof.
  intros Hu He. unfold start_following. rewrite (gated_Some _ _ _ _ Hu).
  destruct token_valid; [|done].
  destruct (User_query_get (db st) follow_id) as [v|] eqn:Hv; [|done].
  case_decide; [done|]. simpl.
  destruct (User_query_get_Some _ _ _ Hv) as [_ Hid].
  rewrite following_append_member; [by destruct st|].
  apply following_member; by rewrite Hid.
Qed.

(** C4: start from follow edges that are stored once each and let any
    requests run.  In the state reached every edge is still stored once;
    and a follow request of the logged-in user on a user they follow
    already leaves the state as it was: the followed user is a member of
    the user's following collection, so no second edge is written. *)
Theorem follow_no_second_edge `{Env} rs st0 u follow_id token_valid :
  NoDup (follows (db st0)) →
  g_user (add_user_and_csrf_to_g (run rs st0)) = Some u →
  follows_user (db (run rs st0)) (User.id u) follow_id →
  let st := run rs st0 in
  let r := start_following follow_id token_valid st in
  state_after r = st ∧
  NoDup (follows (db st)) ∧
  NoDup (follows (db (state_after r))).
Proof.
  intros Hnd Hu He st r. subst r st.
  rewrite (start_following_already _ _ _ _ Hu He).
  split; [done|]. split; by apply follows_NoDup_run.
Qed.

Lemma follow_no_second_edge_witness :
  NoDup (follows (db test_state)) ∧
  g_user (add_user_and_csrf_to_g (run [StartFollowing 2 true] test_state))
    = Some u1 ∧
  follows_user (db (run [StartFollowing 2 true] test_state)) (User.id u1) 2 ∧
  follows (db (state_after (start_following 2 true
                             (run [StartFollowing 2 true] test_state)))) =
    [Follow.mk 1 2].
Proof.
  assert (Hnd : NoDup (follows (db test_state))) by apply NoDup_singleton.
  assert (Hu : g_user (add_user_and_csrf_to_g
                         (run [StartFollowing 2 true] test_state)) = Some u1)
    by (vm_compute; reflexivity).
  assert (Hf : follows (db (run [StartFollowing 2 true] test_state))
               = [Follow.mk 1 2]) by (vm_compute; reflexivity).
  assert (He : follows_user (db (run [StartFollowing 2 true] test_state))
                 (User.id u1) 2).
  { unfold follows_user. rewrite Hf. left. }
  split; [exact Hnd|]. split; [exact Hu|]. split; [exact He|].
  destruct (follow_no_second_edge [StartFollowing 2 true] test_state u1 2 true
              Hnd Hu He) as (Hst & _ & _).
  rewrite Hst. exact Hf.
Defined.

Lemma start_following_self st u token_valid :
  g_user (add_user_and_csrf_to_g st) = Some u →
  start_following (User.id u) token_valid st =
    if token_valid
    then answer st [("You can not follow yourself.", "danger")] (Redirect "/users")
    else unauthorized st.
Proof.
  intros Hu. unfold start_following. rewrite (gated_Some _ _ _ _ Hu).
  destruct token_valid; [|done].
  destruct (g_user_Some _ _ Hu) as (_ & _ & ->). by rewrite decide_True.
Qed.

(** C8: start from tables without a self-follow edge and let any requests
    run.  In the state reached, a follow request of the logged-in user on
    their own id is rejected: with its token it is answered by the flashed
    message "You can not follow yourself." and a redirect, and it leaves the
    state as it was, so no edge is created; and the tables reached hold no
    self-follow edge. *)
Theorem self_follow_rejected `{Env} rs st0 u :
  no_self_follow (db st0) →
  g_user (add_user_and_csrf_to_g (run rs st0)) = Some u →
  let st := run rs st0 in
  let r := start_following (User.id u) true st in
  state_after r = st ∧
  flashed r = [("You can not follow yourself.", "danger")] ∧
  response r = Redirect "/users" ∧
  (∀ token_valid, state_after (start_following (User.id u) token_valid st) = st) ∧
  no_self_follow (db st).
Proof.
  intros Hinv Hu st r. subst r st.
  rewrite (start_following_self _ _ _ Hu). split_and!; try done.
  - intros tok. rewrite (start_following_self _ _ _ Hu). by destruct tok.
  - by apply no_self_follow_run.
Qed.

Lemma self_follow_rejected_witness :
  no_self_follow (db test_state) ∧
  g_user (add_user_and_csrf_to_g (run [StartFollowing 1 true; Homepage] test_state))
    = Some u1 ∧
  no_self_follow (db (run [StartFollowing 1 true; Homepage] test_state)) ∧
  response (start_following 1 true (run [StartFollowing 1 true; Homepage] test_state))
    = Redirect "/users".
Proof.
  assert (Hinv : no_self_follow (db test_state)).
  { unfold no_self_follow. simpl. apply Forall_singleton. simpl. lia. }
  assert (Hu : g_user (add_user_and_csrf_to_g
                         (run [StartFollowing 1 true; Homepage] test_state))
               = Some u1) by (vm_compute; reflexivity).
  split; [exact Hinv|]. split; [exact Hu|].
  destruct (self_follow_rejected [StartFollowing 1 true; Homepage] test_state u1
              Hinv Hu) as (_ & _ & Hr & _ & Hinv').
  split; [exact Hinv' | exact Hr].
Defined.

(** ** Unknown ids *)

Lemma show_user_page_unknown template user_id st u :
  g_user (add_user_and_csrf_to_g st) = Some u →
  User_query_get (db st) user_id = None →
  response (show_user_page template user_id st) = NotFound.
Proof.
  intros Hu Hq. unfold show_user_page. rewrite (logged_in_Some _ _ _ Hu).
  by rewrite Hq.
Qed.

Lemma show_message_unknown message_id st u :
  g_user (add_user_and_csrf_to_g st) = Some u →
  Message_query_get (db st) message_id = None →
  response (show_message message_id st) = NotFound.
Proof.
  intros Hu Hq. unfold show_message. rewrite (logged_in_Some _ _ _ Hu).
  by rewrite Hq.
Qed.

Lemma start_following_unknown follow_id st u :
  g_user (add_user_and_csrf_to_g st) = Some u →
  User_query_get (db st) follow_id = None →
  response (start_following follow_id true st) = NotFound.
Proof.
  intros Hu Hq. unfold start_following. rewrite (gated_Some _ _ _ _ Hu).
  by rewrite Hq.
Qed.

Lemma stop_following_unknown follow_id st u :
  g_user (add_user_and_csrf_to_g st) = Some u →
  User_query_get (db st) follow_id = None →
  response (stop_following follow_id true st) = NotFound.
Proof.
  intros Hu Hq. unfold stop_following. rewrite (gated_Some _ _ _ _ Hu).
  by rewrite Hq.
Qed.

Lemma handle_favorites_unknown message_id url st u :
  g_user (add_user_and_csrf_to_g st) = Some u →
  Message_query_get (db st) message_id = None →
  response (handle_favorites message_id true url st) = NotFound.
Proof.
  intros Hu Hq. unfold handle_favorites. rewrite (gated_Some _ _ _ _ Hu).
  by rewrite Hq.
Qed.

Lemma delete_message_unknown message_id token_valid st :
  Message_query_get (db st) message_id = None →
  response (delete_message message_id token_valid st) = NotFound.
Proof. intros Hq. unfold delete_message. by rewrite Hq. Qed.

(** The likes page never answers not-found. *)
Lemma show_favorite_warbles_never_NotFound user_id st :
  response (show_favorite_warbles user_id st) ≠ NotFound.
Proof.
  unfold show_favorite_warbles, logged_in. by destruct (g_user _).
Qed.

(** C9: [u1] is logged in and no user has the id 99.  The profile page of
    99 is answered with not-found; the likes page of 99 is not: the
    template is rendered, with no user. *)
Theorem show_favorite_warbles_unknown_user :
  g_user (add_user_and_csrf_to_g test_state) = Some u1 ∧
  User_query_get (db test_state) 99 = None ∧
  response (show_user 99 test_state) = NotFound ∧
  response (show_favorite_warbles 99 test_state) =
    Render "users/liked_warbles.html" (UserArgs None) ∧
  response (show_favorite_warbles 99 test_state) ≠ NotFound.
Proof.
  split_and!; try (vm_compute; reflexivity).
  apply show_favorite_warbles_never_NotFound.
Qed.

(** ** The like edges stay free of duplicates *)

Lemma likes_step_refl ls : likes_step ls ls.
Proof. by apply likes_drop. Qed.

#[local] Hint Resolve likes_step_refl : core.

Lemma handle_likes_step `{Env} r st :
  likes_step (likes (db st)) (likes (db (state_after (handle r st)))).
Proof.
  destruct r; simpl.
  - unfold signup. destruct form as [f|]; [|done].
    destruct (uaf_validate f); [|done].
    set (pending := User_signup _ _ _ _).
    destruct (commit_new_user_cases pending (db st))
      as [(d1 & -> & _ & _ & _ & Hl)|(d1 & user & -> & _ & _ & _ & _ & _ & Hl)];
      simpl; rewrite Hl; done.
  - unfold login. destruct form as [f|]; [|done].
    destruct (lf_validate f); [|done]. by destruct (User_authenticate _ _ _).
  - unfold logout. by destruct (csrf_validate_on_submit _ _) as [e|[]].
  - unfold list_users. by through_gate.
  - unfold show_user, show_user_page. through_gate.
    by destruct (User_query_get _ _).
  - unfold show_following, show_user_page. through_gate.
    by destruct (User_query_get _ _).
  - unfold show_followers, show_user_page. through_gate.
    by destruct (User_query_get _ _).
  - unfold show_favorite_warbles. by through_gate.
  - unfold start_following. through_gate.
    destruct (User_query_get _ _); [|done]. case_decide; [done|].
    unfold following_append. by case_decide.
  - unfold stop_following. through_gate.
    destruct (User_query_get _ _); [|done]. unfold following_remove.
    by destruct (list_remove _ (follows (db st))).
  - unfold profile. through_gate.
    destruct form as [f|]; [|done]. destruct (ef_validate f); [|done].
    destruct (User_authenticate _ _ _); [|done].
    unfold commit_update_user. by case_decide.
  - unfold delete_user. through_gate. simpl. apply likes_drop, sublist_filter.
  - unfold add_message. through_gate.
    destruct form as [f|]; [|done]. by destruct (mf_validate f).
  - unfold show_message. through_gate. by destruct (Message_query_get _ _).
  - unfold delete_message. destruct (Message_query_get _ _) as [msg|]; [|done].
    destruct (g_user _) as [u|]; [|done]. case_decide; [done|].
    destruct (csrf_validate_on_submit _ _) as [e|[]]; [done| |done].
    simpl. apply likes_drop, sublist_filter.
  - unfold handle_favorites. through_gate.
    destruct (Message_query_get (db st) message_id) as [msg|] eqn:Hq; [|done].
    destruct (Message_query_get_Some _ _ _ Hq) as [_ <-].
    case_decide as Hnot.
    + simpl. apply likes_add. by rewrite liked_messages_edge in Hnot.
    + unfold liked_messages_remove.
      destruct (list_remove _ (likes (db st))) as [ls|] eqn:Hrm; [|done].
      simpl. apply likes_drop. by eapply list_remove_sublist.
  - unfold homepage. by destruct (g_user _).
Qed.

(** Distinct like edges stay distinct in every state the application
    reaches. *)
Lemma likes_NoDup_run `{Env} rs st :
  NoDup (likes (db st)) → NoDup (likes (db (run rs st))).
Proof.
  unfold run. revert st. induction rs as [|r rs IH]; intros st Hnd; [done|].
  simpl. apply IH. destruct (handle_likes_step r st) as [ls' Hsub|e He].
  - by eapply sublist_NoDup.
  - apply NoDup_app. split_and!; [done| |apply NoDup_singleton].
    intros x Hx ->%list_elem_of_singleton. done.
Qed.

(** * Further properties of the handlers *)

(** ** The gates *)

(** X1: when the session names no stored user (no key, or the key of a
    user that is gone), every route behind the login gate changes nothing,
    flashes "Access unauthorized." and redirects to [/]. *)
Theorem anonymous_rejected `{Env} r st :
  g_user (add_user_and_csrf_to_g st) = None →
  behind_gate r = true →
  handle r st = answer st [unauthorized_flash] (Redirect "/").
Proof.
  intros Hu Hr.
  destruct r; try discriminate Hr; simpl;
    unfold list_users, show_user, show_following, show_followers, show_user_page,
      show_favorite_warbles, start_following, stop_following, profile,
      delete_user, add_message, show_message, handle_favorites,
      gated, logged_in;
    by rewrite Hu.
Qed.

Lemma anonymous_rejected_witness :
  g_user (add_user_and_csrf_to_g anon_state) = None ∧
  behind_gate (AddMessage None 0) = true ∧
  handle (AddMessage None 0) anon_state =
    answer anon_state [unauthorized_flash] (Redirect "/").
Proof.
  assert (Hu : g_user (add_user_and_csrf_to_g anon_state) = None)
    by (vm_compute; reflexivity).
  split; [exact Hu|]. split; [reflexivity|].
  exact (anonymous_rejected (AddMessage None 0) anon_state Hu eq_refl).
Defined.

(** X2: a follow, unfollow, account-delete or favorite request whose token
    does not validate changes nothing, whoever sends it: it is answered
    like an anonymous one, with the flash and the redirect to [/]. *)
Theorem invalid_token_rejected `{Env} r st :
  gate_token r = Some false →
  handle r st = answer st [unauthorized_flash] (Redirect "/").
Proof.
  intros Hr.
  destruct r; try discriminate Hr; simpl in Hr; injection Hr as ->; simpl;
    unfold start_following, stop_following, delete_user, handle_favorites;
    (destruct (g_user (add_user_and_csrf_to_g st)) as [u|] eqn:Hu;
      [by rewrite (gated_Some _ _ _ _ Hu) | by rewrite (gated_None _ _ _ Hu)]).
Qed.

Lemma invalid_token_rejected_witness :
  gate_token (DeleteUser false) = Some false ∧
  handle (DeleteUser false) test_state =
    answer test_state [unauthorized_flash] (Redirect "/").
Proof.
  split; [reflexivity|].
  exact (invalid_token_rejected (DeleteUser false) test_state eq_refl).
Defined.

(** X3: no GET request changes the tables or the session, except the one
    to [/signup]. *)
Theorem GET_changes_nothing `{Env} r st :
  is_GET r = true →
  r ≠ Signup None →
  state_after (handle r st) = st.
Proof.
  intros Hr Hne. destruct r; try discriminate Hr; simpl.
  - destruct form; [discriminate Hr | done].
  - destruct form; [discriminate Hr | done].
  - unfold list_users, logged_in. by destruct (g_user _).
  - unfold show_user, show_user_page, logged_in. destruct (g_user _); [|done].
    by destruct (User_query_get _ _).
  - unfold show_following, show_user_page, logged_in. destruct (g_user _); [|done].
    by destruct (User_query_get _ _).
  - unfold show_followers, show_user_page, logged_in. destruct (g_user _); [|done].
    by destruct (User_query_get _ _).
  - unfold show_favorite_warbles, logged_in. by destruct (g_user _).
  - destruct form; [discriminate Hr|]. unfold profile, logged_in.
    by destruct (g_user _).
  - destruct form; [discriminate Hr|]. unfold add_message, logged_in.
    by destruct (g_user _).
  - unfold show_message, logged_in. destruct (g_user _); [|done].
    by destruct (Message_query_get _ _).
  - unfold homepage. by destruct (g_user _).
Qed.

Lemma GET_changes_nothing_witness :
  is_GET (ShowFavoriteWarbles 99) = true ∧
  ShowFavoriteWarbles 99 ≠ Signup None ∧
  state_after (handle (ShowFavoriteWarbles 99) test_state) = test_state.
Proof.
  assert (Hne : ShowFavoriteWarbles 99 ≠ Signup None) by discriminate.
  split; [reflexivity|]. split; [exact Hne|].
  exact (GET_changes_nothing (ShowFavoriteWarbles 99) test_state eq_refl Hne).
Defined.

(** X4: only the signup, login, logout and account-delete routes write the
    session: every other request leaves it as it was. *)
Theorem session_kept `{Env} r st :
  writes_session r = false →
  session (state_after (handle r st)) = session st.
Proof.
  intros Hr. destruct r; try discriminate Hr; simpl.
  - unfold list_users. by through_gate.
  - unfold show_user, show_user_page. through_gate.
    by destruct (User_query_get _ _).
  - unfold show_following, show_user_page. through_gate.
    by destruct (User_query_get _ _).
  - unfold show_followers, show_user_page. through_gate.
    by destruct (User_query_get _ _).
  - unfold show_favorite_warbles. by through_gate.
  - unfold start_following. through_gate.
    destruct (User_query_get _ _); [|done]. case_decide; [done|].
    unfold following_append. by case_decide.
  - unfold stop_following. through_gate.
    destruct (User_query_get _ _); [|done].
    by destruct (following_remove _ _ _).
  - unfold profile. through_gate.
    destruct form as [f|]; [|done]. destruct (ef_validate f); [|done].
    destruct (User_authenticate _ _ _); [|done].
    by destruct (commit_update_user _ _) as [[]|].
  - unfold add_message. through_gate.
    destruct form as [f|]; [|done]. by destruct (mf_validate f).
  - unfold show_message. through_gate. by destruct (Message_query_get _ _).
  - unfold delete_message. destruct (Message_query_get _ _) as [msg|]; [|done].
    destruct (g_user _) as [u|]; [|done]. case_decide; [done|].
    by destruct (csrf_validate_on_submit _ _) as [e|[]].
  - unfold handle_favorites. through_gate.
    destruct (Message_query_get _ _); [|done]. case_decide; [done|].
    by destruct (liked_messages_remove _ _ _).
  - unfold homepage. by destruct (g_user _).
Qed.

Lemma session_kept_witness :
  writes_session (StartFollowing 2 true) = false ∧
  session (state_after (handle (StartFollowing 2 true) test_state)) =
    session test_state.
Proof.
  split; [reflexivity|].
  exact (session_kept (StartFollowing 2 true) test_state eq_refl).
Defined.

(** ** Login and logout *)

Lemma User_authenticate_Some `{Env} d username password u :
  User_authenticate d username password = Some u →
  u ∈ users d ∧ User.username u = username ∧
  check_password_hash (User.password u) password = true.
Proof.
  unfold User_authenticate.
  destruct (list_find _ (users d)) as [[i v]|] eqn:Hfind; [|done].
  destruct (check_password_hash _ _) eqn:Hchk; [|done]. intros [= ->].
  apply list_find_Some in Hfind as (Hl & Hv & _).
  split_and!; [by eapply list_elem_of_lookup_2 | done | done].
Qed.

Lemma User_authenticate_unknown `{Env} d username password :
  (∀ v, v ∈ users d → User.username v ≠ username) →
  User_authenticate d username password = None.
Proof.
  intros Hno. unfold User_authenticate.
  destruct (list_find _ (users d)) as [[i v]|] eqn:Hfind; [|done].
  apply list_find_Some in Hfind as (Hl & Hv & _).
  destruct (Hno v); [by eapply list_elem_of_lookup_2 | done].
Qed.

(** X5: a login request never writes the tables.  It leaves the session as
    it was, or it sets the current-user key to the id of a stored user who
    has the submitted username and whose stored hash verifies the submitted
    password, greets that user and redirects to [/]. *)
Theorem login_sound `{Env} form st :
  let r := login form st in
  db (state_after r) = db st ∧
  (state_after r = st ∧ (∀ location, response r ≠ Redirect location) ∨
   ∃ f user,
     form = Some f ∧ user ∈ users (db st) ∧
     User.username user = lf_username f ∧
     check_password_hash (User.password user) (lf_password f) = true ∧
     session (state_after r) = <[CURR_USER_KEY := User.id user]> (session st) ∧
     flashed r = [("Hello, " ++ User.username user ++ "!", "success")] ∧
     response r = Redirect "/").
Proof.
  intros r. subst r. unfold login.
  destruct form as [f|]; [|by split; [|left]].
  destruct (lf_validate f); [|by split; [|left]].
  destruct (User_authenticate _ _ _) as [user|] eqn:Hauth; [|by split; [|left]].
  apply User_authenticate_Some in Hauth as (Hin & Hname & Hchk).
  split; [done|]. right. by exists f, user.
Qed.

(** X6: a logout request from a session without the current-user key is
    not answered by a redirect: [g.csrf_form] was never set and reading it
    raises.  From a session with the key, a valid token removes the key
    and nothing else, an invalid one changes nothing; both redirect to
    [/login], and neither writes the tables. *)
Theorem logout_cases token_valid st :
  let r := logout token_valid st in
  db (state_after r) = db st ∧
  match session st !! CURR_USER_KEY with
  | None => state_after r = st ∧ response r = Uncaught AttributeError
  | Some _ =>
      response r = Redirect "/login" ∧
      session (state_after r) =
        (if token_valid then delete CURR_USER_KEY (session st) else session st) ∧
      flashed r = if token_valid then [("User Logged Out", "message")] else []
  end.
Proof.
  intros r. subst r. unfold logout, csrf_validate_on_submit, add_user_and_csrf_to_g.
  destruct (session st !! CURR_USER_KEY) as [uid|] eqn:Hs; simpl.
  - destruct token_valid; simpl; [|done].
    by rewrite do_logout_delete.
  - done.
Qed.

(** ** Following *)

Lemma set_follows_id d : set_follows (follows d) d = d.
Proof. by destruct d. Qed.

Lemma following_elem d u v :
  User_query_get d (User.id v) = Some v →
  follows_user d (User.id u) (User.id v) → v ∈ following d u.
Proof.
  intros Hq He. unfold following. apply list_elem_of_omap.
  eexists. split; [exact He|]. simpl. by rewrite decide_True.
Qed.

Lemma followers_elem d u v :
  User_query_get d (User.id u) = Some u →
  follows_user d (User.id u) (User.id v) → u ∈ followers d v.
Proof.
  intros Hq He. unfold followers. apply list_elem_of_omap.
  eexists. split; [exact He|]. simpl. by rewrite decide_True.
Qed.

(** X7: a logged-in user follows another stored user they did not follow.
    The request is answered by a redirect to the user's following page;
    after it the followed user is in the user's following collection and
    the user in the other's followers collection; and an unfollow request
    right after gives back the state before the two requests. *)
Theorem follow_unfollow follow_id st u v :
  g_user (add_user_and_csrf_to_g st) = Some u →
  User_query_get (db st) follow_id = Some v →
  v ≠ u →
  ¬ follows_user (db st) (User.id u) follow_id →
  let r := start_following follow_id true st in
  let st1 := state_after r in
  response r = Redirect (user_url u ++ "/following") ∧
  v ∈ following (db st1) u ∧
  u ∈ followers (db st1) v ∧
  response (stop_following follow_id true st1) = response r ∧
  state_after (stop_following follow_id true st1) = st.
Proof.
  intros Hu Hv Hne Hnot r st1. subst st1 r.
  destruct (User_query_get_Some _ _ _ Hv) as [_ Hid].
  destruct (g_user_Some _ _ Hu) as (_ & _ & Hq).
  assert (Hstart : start_following follow_id true st =
            answer (mkState (following_append u v (db st)) (session st))
                   [] (Redirect (user_url u ++ "/following"))).
  { unfold start_following.
    by rewrite (gated_Some _ _ _ _ Hu), Hv, decide_False. }
  rewrite Hstart, following_append_new by (by rewrite Hid).
  simpl. set (st1 := mkState _ _).
  assert (He : follows_user (db st1) (User.id u) (User.id v)).
  { unfold follows_user. simpl. apply elem_of_app. right. left. }
  split; [done|]. split; [|split].
  - apply following_elem; [|done]. by rewrite Hid.
  - by apply followers_elem.
  - assert (Hst : stop_following follow_id true st1 =
                  answer st [] (Redirect (user_url u ++ "/following"))).
    { assert (Hu1 : g_user (add_user_and_csrf_to_g st1) = Some u) by exact Hu.
      assert (Hv1 : User_query_get (db st1) follow_id = Some v) by exact Hv.
      unfold stop_following. rewrite (gated_Some _ _ _ _ Hu1), Hv1.
      unfold following_remove. simpl. rewrite list_remove_snoc.
      - unfold set_follows. simpl. destruct st as [[] ?]. done.
      - by rewrite Hid. }
    by rewrite Hst.
Qed.

Lemma follow_unfollow_witness :
  g_user (add_user_and_csrf_to_g test_state2) = Some u2 ∧
  User_query_get (db test_state2) 1 = Some u1 ∧
  u1 ≠ u2 ∧
  ¬ follows_user (db test_state2) (User.id u2) 1 ∧
  state_after (stop_following 1 true
                 (state_after (start_following 1 true test_state2))) = test_state2.
Proof.
  assert (Hu : g_user (add_user_and_csrf_to_g test_state2) = Some u2)
    by (vm_compute; reflexivity).
  assert (Hv : User_query_get (db test_state2) 1 = Some u1)
    by (vm_compute; reflexivity).
  assert (Hne : u1 ≠ u2) by discriminate.
  assert (Hnot : ¬ follows_user (db test_state2) (User.id u2) 1).
  { unfold follows_user. simpl. intros He%list_elem_of_singleton. discriminate He. }
  split; [exact Hu|]. split; [exact Hv|]. split; [exact Hne|].
  split; [exact Hnot|].
  destruct (follow_unfollow 1 test_state2 u2 u1 Hu Hv Hne Hnot)
    as (_ & _ & _ & _ & Hback).
  exact Hback.
Defined.

(** [list.remove] takes out the first occurrence and nothing else. *)
Lemma list_remove_Some {A} `{EqDecision A} (x : A) l l' :
  list_remove x l = Some l' ↔
  ∃ l1 l2, l = (l1 ++ x :: l2)%list ∧ l' = (l1 ++ l2)%list ∧ x ∉ l1.
Proof.
  revert l'. induction l as [|y l IH]; intros l'; simpl.
  - split; [done|]. intros (l1 & l2 & Hl & _). by destruct l1.
  - case_decide as Hxy.
    + subst y. split.
      * intros [= <-]. exists [], l. split_and!; [done..|]. apply not_elem_of_nil.
      * intros (l1 & l2 & Hl & -> & Hx). destruct l1 as [|z l1]; simpl in *.
        -- by injection Hl as ->.
        -- injection Hl as -> _. destruct Hx. left.
    + rewrite fmap_Some. split.
      * intros (k & Hk & ->). apply IH in Hk as (l1 & l2 & -> & -> & Hx).
        exists (y :: l1), l2. split_and!; [done..|].
        apply not_elem_of_cons. done.
      * intros (l1 & l2 & Hl & -> & Hx). destruct l1 as [|z l1]; simpl in *.
        -- injection Hl as -> _. done.
        -- injection Hl as -> ->. apply not_elem_of_cons in Hx as [_ Hx].
           exists (l1 ++ l2)%list. split; [|done]. apply IH. by exists l1, l2.
Qed.

(** X8: a logged-in user unfollows a stored user they follow.  The request
    is answered by a redirect to the following page; one edge from the user
    to the other is taken out of the follow edges and every other edge
    stays; users, messages, likes and the session are untouched; when the
    edge was stored once, the user no longer follows the other. *)
Theorem unfollow_removes_one follow_id st u v :
  g_user (add_user_and_csrf_to_g st) = Some u →
  User_query_get (db st) follow_id = Some v →
  follows_user (db st) (User.id u) follow_id →
  let r := stop_following follow_id true st in
  let d := db (state_after r) in
  response r = Redirect (user_url u ++ "/following") ∧
  S (length (follows d)) = length (follows (db st)) ∧
  (∀ e, e ≠ Follow.mk (User.id u) follow_id →
        e ∈ follows d ↔ e ∈ follows (db st)) ∧
  (NoDup (follows (db st)) → ¬ follows_user d (User.id u) follow_id) ∧
  users d = users (db st) ∧ messages d = messages (db st) ∧
  likes d = likes (db st) ∧ session (state_after r) = session st.
Proof.
  intros Hu Hv He r d. subst d r.
  destruct (User_query_get_Some _ _ _ Hv) as [_ Hid].
  unfold stop_following. rewrite (gated_Some _ _ _ _ Hu), Hv.
  unfold following_remove, follows_user in *. rewrite Hid.
  destruct (list_remove _ (follows (db st))) as [fs|] eqn:Hrm.
  - simpl. pose proof Hrm as (l1 & l2 & Hl & -> & Hx)%list_remove_Some.
    split_and!; try done.
    + rewrite Hl, !length_app. simpl. lia.
    + intros e Hne. rewrite Hl, !elem_of_app, elem_of_cons. tauto.
    + intros Hnd. by eapply list_remove_NoDup_gone.
  - by apply list_remove_None in Hrm.
Qed.

Lemma unfollow_removes_one_witness :
  g_user (add_user_and_csrf_to_g test_state) = Some u1 ∧
  User_query_get (db test_state) 2 = Some u2 ∧
  follows_user (db test_state) (User.id u1) 2 ∧
  follows (db (state_after (stop_following 2 true test_state))) = [].
Proof.
  assert (Hu : g_user (add_user_and_csrf_to_g test_state) = Some u1)
    by (vm_compute; reflexivity).
  assert (Hv : User_query_get (db test_state) 2 = Some u2)
    by (vm_compute; reflexivity).
  assert (He : follows_user (db test_state) (User.id u1) 2).
  { unfold follows_user. simpl. left. }
  split; [exact Hu|]. split; [exact Hv|]. split; [exact He|].
  destruct (unfollow_removes_one 2 test_state u1 u2 Hu Hv He) as (_ & Hlen & _).
  destruct (follows (db (state_after (stop_following 2 true test_state))))
    as [|e fs]; [reflexivity | discriminate Hlen].
Defined.

(** ** What a favorite request leaves alone *)

(** X9: a favorite request of a logged-in user, whatever its token and its
    message id, touches at most the like edge of that user on that message:
    every other like edge is stored after it exactly when it was before,
    and users, messages, follow edges and the session are as they were. *)
Theorem favorite_frame message_id token_valid url st u :
  g_user (add_user_and_csrf_to_g st) = Some u →
  let r := handle_favorites message_id token_valid url st in
  let d := db (state_after r) in
  (∀ e, e ≠ Like.mk (User.id u) message_id → e ∈ likes d ↔ e ∈ likes (db st)) ∧
  users d = users (db st) ∧ messages d = messages (db st) ∧
  follows d = follows (db st) ∧ session (state_after r) = session st.
Proof.
  intros Hu r d. subst d r. unfold handle_favorites.
  rewrite (gated_Some _ _ _ _ Hu). destruct token_valid; [|done].
  destruct (Message_query_get (db st) message_id) as [msg|] eqn:Hq; [|done].
  destruct (Message_query_get_Some _ _ _ Hq) as [_ Hid].
  case_decide as Hnot.
  - simpl. rewrite Hid. split_and!; try done.
    intros e Hne. rewrite elem_of_app, list_elem_of_singleton. tauto.
  - unfold liked_messages_remove. rewrite Hid.
    destruct (list_remove _ (likes (db st))) as [ls|] eqn:Hrm; [|done].
    simpl. apply list_remove_Some in Hrm as (l1 & l2 & Hl & -> & Hx).
    split_and!; try done.
    intros e Hne. rewrite Hl, !elem_of_app, elem_of_cons. tauto.
Qed.

Lemma favorite_frame_witness :
  g_user (add_user_and_csrf_to_g test_state) = Some u1 ∧
  Like.mk 1 2 ∈ likes (db (state_after (handle_favorites 1 true None test_state))).
Proof.
  assert (Hu : g_user (add_user_and_csrf_to_g test_state) = Some u1)
    by (vm_compute; reflexivity).
  split; [exact Hu|].
  destruct (favorite_frame 1 true None test_state u1 Hu) as (Hother & _).
  apply (Hother (Like.mk 1 2)); [discriminate | left].
Defined.

(** ** Editing the profile *)

Lemma commit_update_user_taken user d :
  taken d (Some (User.id user)) user →
  commit_update_user user d = inl IntegrityError.
Proof. intros Ht. unfold commit_update_user. by rewrite decide_True. Qed.

(** X10: a logged-in user submits a valid profile form with their password,
    asking for a username or an email that another stored user has.
    Nothing is written: the state is the one the request met, and the edit
    form is shown again with the user as stored and the error
    "Username Already Taken". *)
Theorem profile_duplicate `{Env} f st u v :
  g_user (add_user_and_csrf_to_g st) = Some u →
  ef_validate f = true →
  check_password_hash (User.password u) (ef_password f) = true →
  (∀ w, w ∈ users (db st) → User.username w = User.username u → w = u) →
  v ∈ users (db st) → User.id v ≠ User.id u →
  User.username v = ef_username f ∨ User.email v = ef_email f →
  profile (Some f) st =
    answer st [] (Render "/users/edit.html"
                         (UserFormArgs u ["Username Already Taken"])).
Proof.
  intros Hu Hval Hchk Huniq Hv Hne Hdup.
  destruct (g_user_Some _ _ Hu) as (_ & _ & Hq).
  destruct (User_query_get_Some _ _ _ Hq) as [Hin _].
  unfold profile. rewrite (logged_in_Some _ _ _ Hu), Hval.
  assert (Hauth : User_authenticate (db st) (User.username u) (ef_password f)
                  = Some u).
  { unfold User_authenticate.
    destruct (list_find _ (users (db st))) as [[i w]|] eqn:Hfind.
    - apply list_find_Some in Hfind as (Hl & Hw & _).
      apply list_elem_of_lookup_2 in Hl. rewrite (Huniq w Hl Hw). by rewrite Hchk.
    - apply list_find_None in Hfind. rewrite Forall_forall in Hfind.
      by destruct (Hfind u Hin). }
  rewrite Hauth, commit_update_user_taken; [done|].
  unfold taken. apply Exists_exists. exists v. split; [done|]. simpl.
  split; [|done]. intros [= Heq]. done.
Qed.

Lemma test_usernames_unique w :
  w ∈ users (db test_state) → User.username w = User.username u1 → w = u1.
Proof.
  simpl. intros Hw Hname.
  apply elem_of_cons in Hw as [->|Hw]; [done|].
  apply list_elem_of_singleton in Hw as ->. discriminate Hname.
Qed.

Lemma profile_duplicate_witness :
  g_user (add_user_and_csrf_to_g test_state) = Some u1 ∧
  u2 ∈ users (db test_state) ∧
  User.username u2 = ef_username taken_edit_form ∧
  state_after (profile (Some taken_edit_form) test_state) = test_state.
Proof.
  assert (Hu : g_user (add_user_and_csrf_to_g test_state) = Some u1)
    by (vm_compute; reflexivity).
  assert (Hv : u2 ∈ users (db test_state)) by (simpl; right; left).
  assert (Hne : User.id u2 ≠ User.id u1) by discriminate.
  assert (Hchk : check_password_hash (User.password u1)
                   (ef_password taken_edit_form) = true)
    by (vm_compute; reflexivity).
  split; [exact Hu|]. split; [exact Hv|]. split; [reflexivity|].
  rewrite (profile_duplicate taken_edit_form test_state u1 u2 Hu eq_refl Hchk
             test_usernames_unique Hv Hne (or_introl eq_refl)).
  reflexivity.
Defined.

(** X11: a logged-in user submits a valid profile form with a password
    that the stored hash does not verify.  Nothing is written and the edit
    form is shown again with the error "Bad Password". *)
Theorem profile_bad_password `{Env} f st u :
  g_user (add_user_and_csrf_to_g st) = Some u →
  ef_validate f = true →
  check_password_hash (User.password u) (ef_password f) = false →
  (∀ w, w ∈ users (db st) → User.username w = User.username u → w = u) →
  profile (Some f) st =
    answer st [] (Render "/users/edit.html" (UserFormArgs u ["Bad Password"])).
Proof.
  intros Hu Hval Hchk Huniq.
  unfold profile. rewrite (logged_in_Some _ _ _ Hu), Hval.
  assert (Hauth : User_authenticate (db st) (User.username u) (ef_password f)
                  = None).
  { unfold User_authenticate.
    destruct (list_find _ (users (db st))) as [[i w]|] eqn:Hfind; [|done].
    apply list_find_Some in Hfind as (Hl & Hw & _).
    apply list_elem_of_lookup_2 in Hl. rewrite (Huniq w Hl Hw). by rewrite Hchk. }
  by rewrite Hauth.
Qed.

Lemma profile_bad_password_witness :
  g_user (add_user_and_csrf_to_g test_state) = Some u1 ∧
  check_password_hash (User.password u1) (ef_password bad_password_form) = false ∧
  response (profile (Some bad_password_form) test_state) =
    Render "/users/edit.html" (UserFormArgs u1 ["Bad Password"]).
Proof.
  assert (Hu : g_user (add_user_and_csrf_to_g test_state) = Some u1)
    by (vm_compute; reflexivity).
  assert (Hchk : check_password_hash (User.password u1)
                   (ef_password bad_password_form) = false)
    by (vm_compute; reflexivity).
  split; [exact Hu|]. split; [exact Hchk|].
  rewrite (profile_bad_password bad_password_form test_state u1 Hu eq_refl Hchk
             test_usernames_unique).
  reflexivity.
Defined.

Lemma commit_update_user_ok user d d' :
  commit_update_user user d = inr d' →
  messages d' = messages d ∧ follows d' = follows d ∧ likes d' = likes d ∧
  User.id <$> users d' = User.id <$> users d ∧
  (∀ w, w ∈ users d → User.id w ≠ User.id user → w ∈ users d') ∧
  (∀ w, User_query_get d (User.id user) = Some w →
        User_query_get d' (User.id user) = Some user).
Proof.
  unfold commit_update_user. case_decide; [done|]. intros [= <-]. simpl.
  set (upd := λ v, if decide (User.id v = User.id user) then user else v).
  assert (Hid : ∀ v, User.id (upd v) = User.id v).
  { intros v. unfold upd. by case_decide. }
  split_and!; try done.
  - rewrite <- list_fmap_compose. apply list_fmap_ext. intros i v _. apply Hid.
  - intros w Hw Hne. apply list_elem_of_fmap. exists w. split; [|done].
    unfold upd. by rewrite decide_False.
  - intros w. unfold User_query_get. simpl. rewrite list_find_fmap.
    rewrite (list_find_ext ((λ u, User.id u = User.id user) ∘ upd)
                           (λ u, User.id u = User.id user))
      by (intros v; simpl; by rewrite Hid).
    intros ([i w'] & Hfind & ->)%fmap_Some. rewrite Hfind. simpl.
    apply list_find_Some in Hfind as (_ & Hw & _).
    unfold upd. by rewrite decide_True.
Qed.

(** X12: whatever profile form a logged-in user submits, the request keeps
    messages, follow edges, like edges and the session; the users keep
    their ids, in the same order; the row of every other user stays as it
    is; and the user is still the current user afterwards, with the same
    id and the same password hash. *)
Theorem profile_frame `{Env} form st u :
  g_user (add_user_and_csrf_to_g st) = Some u →
  let st' := state_after (profile form st) in
  messages (db st') = messages (db st) ∧
  follows (db st') = follows (db st) ∧
  likes (db st') = likes (db st) ∧
  session st' = session st ∧
  User.id <$> users (db st') = User.id <$> users (db st) ∧
  (∀ w, w ∈ users (db st) → User.id w ≠ User.id u → w ∈ users (db st')) ∧
  ∃ u', g_user (add_user_and_csrf_to_g st') = Some u' ∧
        User.id u' = User.id u ∧ User.password u' = User.password u.
Proof.
  intros Hu st'. subst st'.
  assert (Hsame : ∀ fl resp,
    let st' := state_after (answer st fl resp) in
    messages (db st') = messages (db st) ∧ follows (db st') = follows (db st) ∧
    likes (db st') = likes (db st) ∧ session st' = session st ∧
    User.id <$> users (db st') = User.id <$> users (db st) ∧
    (∀ w, w ∈ users (db st) → User.id w ≠ User.id u → w ∈ users (db st')) ∧
    ∃ u', g_user (add_user_and_csrf_to_g st') = Some u' ∧
          User.id u' = User.id u ∧ User.password u' = User.password u).
  { intros fl resp. simpl. split_and!; try done. by exists u. }
  unfold profile. rewrite (logged_in_Some _ _ _ Hu).
  destruct form as [f|]; [|apply Hsame].
  destruct (ef_validate f); [|apply Hsame].
  destruct (User_authenticate _ _ _); [|apply Hsame].
  set (edited := User.mk _ _ _ _ _ _ _).
  destruct (commit_update_user edited (db st)) as [[]|d'] eqn:Hc;
    [apply Hsame..|].
  apply commit_update_user_ok in Hc as (Hm & Hf & Hl & Hids & Hothers & Hget).
  simpl. split_and!; try done.
  destruct (g_user_Some _ _ Hu) as (_ & Hs & Hq).
  exists edited. split; [|done].
  unfold add_user_and_csrf_to_g. simpl. rewrite Hs. simpl.
  by apply (Hget u).
Qed.

Lemma profile_frame_witness :
  g_user (add_user_and_csrf_to_g test_state) = Some u1 ∧
  User.id <$> users (db (state_after (profile (Some taken_edit_form) test_state)))
    = User.id <$> users (db test_state).
Proof.
  assert (Hu : g_user (add_user_and_csrf_to_g test_state) = Some u1)
    by (vm_compute; reflexivity).
  split; [exact Hu|].
  destruct (profile_frame (Some taken_edit_form) test_state u1 Hu)
    as (_ & _ & _ & _ & Hids & _).
  exact Hids.
Defined.

(** ** Ids that name nothing *)

(** X13: a logged-in user asks, with a valid token where one is needed, for
    a user or message id that is not stored, on any of the routes that look
    the id up with [get_or_404] (the profile, following and followers
    pages, follow, unfollow, the message page, delete and favorite).  The
    answer is not-found, nothing is flashed and nothing is written. *)
Theorem unknown_id_not_found `{Env} r st u :
  g_user (add_user_and_csrf_to_g st) = Some u →
  unknown_id r (db st) →
  handle r st = answer st [] NotFound.
Proof.
  intros Hu Hr.
  destruct r as [| | | | | | | |? []|? []| | | | | |? [] ?|];
    simpl in Hr; try done; simpl.
  - unfold show_user, show_user_page. by rewrite (logged_in_Some _ _ _ Hu), Hr.
  - unfold show_following, show_user_page.
    by rewrite (logged_in_Some _ _ _ Hu), Hr.
  - unfold show_followers, show_user_page.
    by rewrite (logged_in_Some _ _ _ Hu), Hr.
  - unfold start_following. by rewrite (gated_Some _ _ _ _ Hu), Hr.
  - unfold stop_following. by rewrite (gated_Some _ _ _ _ Hu), Hr.
  - unfold show_message. by rewrite (logged_in_Some _ _ _ Hu), Hr.
  - unfold delete_message. by rewrite Hr.
  - unfold handle_favorites. by rewrite (gated_Some _ _ _ _ Hu), Hr.
Qed.

Lemma unknown_id_not_found_witness :
  g_user (add_user_and_csrf_to_g test_state) = Some u1 ∧
  unknown_id (HandleFavorites 7 true None) (db test_state) ∧
  handle (HandleFavorites 7 true None) test_state = answer test_state [] NotFound.
Proof.
  assert (Hu : g_user (add_user_and_csrf_to_g test_state) = Some u1)
    by (vm_compute; reflexivity).
  assert (Hr : unknown_id (HandleFavorites 7 true None) (db test_state))
    by (vm_compute; reflexivity).
  split; [exact Hu|]. split; [exact Hr|].
  exact (unknown_id_not_found (HandleFavorites 7 true None) test_state u1 Hu Hr).
Defined.

(** X14: the delete route looks the message up before it looks at the
    requester.  To a requester who is not logged in it answers not-found
    exactly when no message has the id, and the flashed redirect when one
    has; the message page, asked by the same requester, answers with the
    flashed redirect either way. *)
Theorem delete_message_lookup_first message_id token_valid st :
  g_user (add_user_and_csrf_to_g st) = None →
  (Message_query_get (db st) message_id = None →
     delete_message message_id token_valid st = answer st [] NotFound) ∧
  (is_Some (Message_query_get (db st) message_id) →
     delete_message message_id token_valid st =
       answer st [unauthorized_flash] (Redirect "/")) ∧
  show_message message_id st = answer st [unauthorized_flash] (Redirect "/").
Proof.
  intros Hu. unfold delete_message, show_message, logged_in. rewrite Hu.
  split_and!; [by intros ->| |done]. by intros [msg ->].
Qed.

Lemma delete_message_lookup_first_witness :
  g_user (add_user_and_csrf_to_g anon_state) = None ∧
  response (delete_message 7 true anon_state) = NotFound ∧
  response (delete_message 1 true anon_state) = Redirect "/".
Proof.
  assert (Hu : g_user (add_user_and_csrf_to_g anon_state) = None)
    by (vm_compute; reflexivity).
  split; [exact Hu|].
  destruct (delete_message_lookup_first 7 true anon_state Hu) as (Hnone & _ & _).
  destruct (delete_message_lookup_first 1 true anon_state Hu) as (_ & Hsome & _).
  split.
  - rewrite Hnone; [reflexivity | vm_compute; reflexivity].
  - rewrite Hsome; [reflexivity | vm_compute; eexists; reflexivity].
Defined.

(** ** The home feed holds the newest *)

(** The messages the query of [homepage] selects. *)
Lemma home_messages_selected d u m :
  m ∈ messages d →
  Message.user_id m = User.id u ∨
    (follows_user d (User.id u) (Message.user_id m) ∧
     is_Some (User_query_get d (Message.user_id m))) →
  m ∈ filter (λ m, Message.user_id m ∈
                     ((User.id <$> following d u) ++ [User.id u])%list)
             (messages d).
Proof.
  intros Hm Hown. apply list_elem_of_filter. split; [|done].
  apply elem_of_app. destruct Hown as [->|[He [v Hv]]].
  - right. left.
  - left. destruct (User_query_get_Some _ _ _ Hv) as [_ Hid].
    apply list_elem_of_fmap. exists v. split; [done|].
    apply following_elem; by rewrite Hid.
Qed.

(** X15: a stored message written by the logged-in user, or by a stored
    user they follow, is left out of the home feed only when the feed is
    full: then the feed has 100 entries and each of them is at least as new
    as the message. *)
Theorem homepage_newest st u m :
  g_user (add_user_and_csrf_to_g st) = Some u →
  m ∈ messages (db st) →
  Message.user_id m = User.id u ∨
    (follows_user (db st) (User.id u) (Message.user_id m) ∧
     is_Some (User_query_get (db st) (Message.user_id m))) →
  ∃ feed,
    response (homepage st) = Render "home.html" (MessagesArgs feed) ∧
    (m ∈ feed ∨
     (length feed = 100 ∧ ∀ x, x ∈ feed → newer_first x m)).
Proof.
  intros Hu Hm Hown. exists (home_messages (db st) u).
  unfold homepage. rewrite Hu. split; [done|]. unfold home_messages.
  pose proof (home_messages_selected _ _ _ Hm Hown) as Hsel.
  set (sorted := merge_sort newer_first _).
  assert (Hin : m ∈ sorted) by (unfold sorted; by rewrite merge_sort_Permutation).
  assert (Hsorted : StronglySorted newer_first sorted)
    by (apply StronglySorted_merge_sort; apply _).
  rewrite <- (take_drop 100 sorted) in Hin, Hsorted.
  apply elem_of_app in Hin as [Hin|Hin]; [by left|]. right. split.
  - rewrite length_take. apply Nat.min_l.
    destruct (decide (100 ≤ length sorted)%nat) as [|Hshort]; [done|].
    rewrite drop_ge in Hin by lia. by apply not_elem_of_nil in Hin.
  - intros x Hx. by eapply StronglySorted_app_1_elem_of.
Qed.

Lemma homepage_newest_witness :
  g_user (add_user_and_csrf_to_g test_state) = Some u1 ∧
  m2 ∈ messages (db test_state) ∧
  follows_user (db test_state) (User.id u1) (Message.user_id m2) ∧
  ∃ feed,
    response (homepage test_state) = Render "home.html" (MessagesArgs feed) ∧
    (m2 ∈ feed ∨
     (length feed = 100 ∧ ∀ x, x ∈ feed → newer_first x m2)).
Proof.
  assert (Hu : g_user (add_user_and_csrf_to_g test_state) = Some u1)
    by (vm_compute; reflexivity).
  assert (Hm : m2 ∈ messages (db test_state)) by (simpl; right; left).
  assert (He : follows_user (db test_state) (User.id u1) (Message.user_id m2)).
  { unfold follows_user. simpl. left. }
  assert (Hv : is_Some (User_query_get (db test_state) (Message.user_id m2)))
    by (vm_compute; eexists; reflexivity).
  split; [exact Hu|]. split; [exact Hm|]. split; [exact He|].
  exact (homepage_newest test_state u1 m2 Hu Hm (or_intror (conj He Hv))).
Defined.

(** X16: a logged-in user posts a valid message at a time later than the
    timestamp of every stored message.  The request redirects to the
    user's page and appends one message, owned by the user and stamped
    with that time; the home feed of the next request starts with it. *)
Theorem posted_message_on_top f now st u :
  g_user (add_user_and_csrf_to_g st) = Some u →
  mf_validate f = true →
  (∀ m, m ∈ messages (db st) → (Message.timestamp m < now)%Z) →
  let r := add_message (Some f) now st in
  let new := Message.mk (messages_id_seq (db st)) (mf_text f) now (User.id u) in
  response r = Redirect (user_url u) ∧
  messages (db (state_after r)) = (messages (db st) ++ [new])%list ∧
  ∃ rest, response (homepage (state_after r)) =
            Render "home.html" (MessagesArgs (new :: rest)).
Proof.
  intros Hu Hval Hnow r new. subst r.
  unfold add_message. rewrite (logged_in_Some _ _ _ Hu), Hval. simpl.
  fold new. split; [done|]. split; [done|].
  set (st1 := mkState _ _).
  assert (Hu1 : g_user (add_user_and_csrf_to_g st1) = Some u) by exact Hu.
  unfold homepage. rewrite Hu1. unfold home_messages.
  set (sorted := merge_sort newer_first _).
  assert (Hold : ∀ x, x ∈ sorted → x = new ∨ (Message.timestamp x < now)%Z).
  { intros x. unfold sorted. rewrite merge_sort_Permutation.
    intros [_ Hx]%list_elem_of_filter. simpl in Hx. fold new in Hx.
    apply elem_of_app in Hx as [Hx|Hx%list_elem_of_singleton]; auto. }
  assert (Hin : new ∈ sorted).
  { unfold sorted. rewrite merge_sort_Permutation.
    apply home_messages_selected; [|by left].
    simpl. fold new. apply elem_of_app. right. left. }
  assert (Hsorted : StronglySorted newer_first sorted)
    by (apply StronglySorted_merge_sort; apply _).
  destruct sorted as [|h t]; [by apply not_elem_of_nil in Hin|].
  assert (Hh : h = new).
  { destruct (Hold h) as [|Hlt]; [left|done|].
    apply elem_of_cons in Hin as [|Hin]; [done|].
    apply StronglySorted_cons in Hsorted as [Hall _].
    rewrite Forall_forall in Hall. specialize (Hall new Hin).
    unfold newer_first in Hall. simpl in Hall. lia. }
  subst h. by exists (take 99 t).
Qed.

Lemma posted_message_on_top_witness :
  g_user (add_user_and_csrf_to_g test_state) = Some u1 ∧
  (∀ m, m ∈ messages (db test_state) → (Message.timestamp m < 30)%Z) ∧
  ∃ rest, response (homepage (state_after (add_message (Some hello_form) 30
                                               test_state))) =
            Render "home.html" (MessagesArgs (Message.mk 3 "Hello" 30 1 :: rest)).
Proof.
  assert (Hu : g_user (add_user_and_csrf_to_g test_state) = Some u1)
    by (vm_compute; reflexivity).
  assert (Hnow : ∀ m, m ∈ messages (db test_state) → (Message.timestamp m < 30)%Z).
  { simpl. intros m Hm. apply elem_of_cons in Hm as [->|Hm]; [reflexivity|].
    apply list_elem_of_singleton in Hm as ->. reflexivity. }
  split; [exact Hu|]. split; [exact Hnow|].
  destruct (posted_message_on_top hello_form 30 test_state u1 Hu eq_refl Hnow)
    as (_ & _ & Htop).
  exact Htop.
Defined.

(** ** Like edges over runs *)

(** X17: no request stores a like edge twice: when the like edges are
    distinct, they are distinct after every request and after every run of
    requests. *)
Theorem likes_stay_distinct `{Env} rs st :
  NoDup (likes (db st)) →
  NoDup (likes (db (run rs st))) ∧
  ∀ r, NoDup (likes (db (state_after (handle r (run rs st))))).
Proof.
  intros Hnd. split; [by apply likes_NoDup_run|].
  intros r. apply (likes_NoDup_run (rs ++ [r])) in Hnd.
  unfold run in *. by rewrite foldl_app in Hnd.
Qed.

Lemma likes_stay_distinct_witness :
  NoDup (likes (db test_state)) ∧
  NoDup (likes (db (run [HandleFavorites 1 true None; HandleFavorites 1 true None;
                         HandleFavorites 1 true None] test_state))).
Proof.
  assert (Hnd : NoDup (likes (db test_state))) by apply NoDup_singleton.
  split; [exact Hnd|].
  destruct (likes_stay_distinct
              [HandleFavorites 1 true None; HandleFavorites 1 true None;
               HandleFavorites 1 true None] test_state Hnd) as [Hrun _].
  exact Hrun.
Defined.

(** ** Signing up, then logging in *)

Lemma list_find_snoc_new {A} (P : A → Prop) `{∀ x, Decision (P x)} l x :
  (∀ y, y ∈ l → ¬ P y) → P x →
  list_find P (l ++ [x]) = Some (length l, x).
Proof.
  intros Hl Hx. apply list_find_Some. split_and!.
  - by rewrite lookup_app_r, Nat.sub_diag.
  - done.
  - intros j y Hj Hlt. rewrite lookup_app_l in Hj by done.
    apply Hl. by eapply list_elem_of_lookup_2.
Qed.

(** X18: a valid signup with a username and an email that no stored user
    has appends the user, with the hash of the password, names the user in
    the session and redirects to [/].  When the hash function and its check
    agree on the password, a login with the same username and password on
    the state the signup left finds that user again. *)
Theorem signup_then_login `{Env} f st :
  uaf_validate f = true →
  (∀ v, v ∈ users (db st) →
        User.username v ≠ uaf_username f ∧ User.email v ≠ uaf_email f) →
  check_password_hash (generate_password_hash (uaf_password f)) (uaf_password f)
    = true →
  let r := signup (Some f) st in
  let st1 := state_after r in
  ∃ user,
    users (db st1) = (users (db st) ++ [user])%list ∧
    User.id user = users_id_seq (db st) ∧
    User.username user = uaf_username f ∧
    User.email user = uaf_email f ∧
    User.password user = generate_password_hash (uaf_password f) ∧
    session st1 !! CURR_USER_KEY = Some (User.id user) ∧
    response r = Redirect "/" ∧
    ∀ errors s,
      let r2 := login (Some (Build_LoginForm true errors (uaf_username f)
                                             (uaf_password f)))
                      (mkState (db st1) s) in
      session (state_after r2) = <[CURR_USER_KEY := User.id user]> s ∧
      flashed r2 = [("Hello, " ++ uaf_username f ++ "!", "success")] ∧
      response r2 = Redirect "/".
Proof.
  intros Hval Hfree Hhash r st1. subst st1 r. unfold signup. rewrite Hval.
  set (pending := User_signup _ _ _ _).
  assert (Hnot : ¬ taken (db st) None (pending (users_id_seq (db st)))).
  { unfold taken. rewrite Exists_exists. intros (v & Hv & _ & Hdup).
    destruct (Hfree v Hv) as [Hn He]. simpl in Hdup. tauto. }
  unfold commit_new_user. rewrite decide_False by done. simpl.
  exists (pending (users_id_seq (db st))).
  split_and!; try done; [apply do_login_lookup|].
  intros errors s. unfold User_authenticate. simpl.
  rewrite (list_find_snoc_new _ (users (db st)) (pending (users_id_seq (db st))));
    [|intros y Hy; by destruct (Hfree y Hy)|done].
  simpl. rewrite Hhash. simpl. done.
Qed.

Lemma signup_then_login_witness :
  uaf_validate new_user_form = true ∧
  session (state_after (login (Some (Build_LoginForm true [] "u3" "secret"))
             (mkState (db (state_after (signup (Some new_user_form) anon_state)))
                      ∅)))
    !! CURR_USER_KEY = Some 3.
Proof.
  split; [reflexivity|].
  assert (Hfree : ∀ v, v ∈ users (db anon_state) →
            User.username v ≠ uaf_username new_user_form ∧
            User.email v ≠ uaf_email new_user_form).
  { simpl. intros v Hv. apply elem_of_cons in Hv as [->|Hv]; [by split|].
    apply list_elem_of_singleton in Hv as ->. by split. }
  assert (Hhash : check_password_hash
                    (generate_password_hash (uaf_password new_user_form))
                    (uaf_password new_user_form) = true)
    by (vm_compute; reflexivity).
  destruct (signup_then_login new_user_form anon_state eq_refl Hfree Hhash)
    as (user & _ & Hid & _ & _ & _ & _ & _ & Hlogin).
  destruct (Hlogin [] ∅) as (Hs & _ & _).
  etransitivity; [exact (f_equal (λ s, s !! CURR_USER_KEY) Hs)|].
  rewrite lookup_insert_eq. by rewrite Hid.
Defined.

(** ** A deleted account *)

(** X19: after a logged-in user, whose username no other stored user has,
    deletes their account, a session that still names the user is the
    session of nobody, and a login with the user's username fails whatever
    the password: it changes nothing and flashes "Invalid credentials.". *)
Theorem deleted_account_locked_out `{Env} st u :
  g_user (add_user_and_csrf_to_g st) = Some u →
  (∀ w, w ∈ users (db st) → User.username w = User.username u → w = u) →
  let d := db (state_after (delete_user true st)) in
  ∀ s errors password,
    let r := login (Some (Build_LoginForm true errors (User.username u) password))
                   (mkState d s) in
    g_user (add_user_and_csrf_to_g
              (mkState d (<[CURR_USER_KEY := User.id u]> s))) = None ∧
    state_after r = mkState d s ∧
    flashed r = [("Invalid credentials.", "danger")] ∧
    response r = Render "users/login.html" (FormArgs errors).
Proof.
  intros Hu Huniq d s errors password r. subst r d.
  unfold delete_user. rewrite (gated_Some _ _ _ _ Hu). simpl. split.
  - unfold add_user_and_csrf_to_g. simpl. rewrite lookup_insert_eq. simpl.
    apply User_query_get_None. simpl. intros v Hv.
    by apply list_elem_of_filter in Hv as [? _].
  - unfold login. simpl. rewrite User_authenticate_unknown; [done|].
    simpl. intros v [Hid Hv]%list_elem_of_filter Hname.
    apply Hid. by rewrite (Huniq v Hv Hname).
Qed.

Lemma deleted_account_locked_out_witness :
  g_user (add_user_and_csrf_to_g test_state) = Some u1 ∧
  g_user (add_user_and_csrf_to_g
            (mkState (db (state_after (delete_user true test_state)))
                     (<[CURR_USER_KEY := User.id u1]> ∅))) = None.
Proof.
  assert (Hu : g_user (add_user_and_csrf_to_g test_state) = Some u1)
    by (vm_compute; reflexivity).
  split; [exact Hu|].
  destruct (deleted_account_locked_out test_state u1 Hu test_usernames_unique
              ∅ [] "password") as [Hgone _].
  exact Hgone.
Defined.

(** ** Keys, usernames and emails stay distinct *)

Lemma NoDup_fmap_filter {A B} (f : A → B) (P : A → Prop) `{∀ x, Decision (P x)} l :
  NoDup (f <$> l) → NoDup (f <$> filter P l).
Proof.
  induction l as [|x l IH]; [done|]. csimpl. rewrite NoDup_cons. intros [Hx Hl].
  rewrite filter_cons. case_decide; [|by apply IH]. csimpl.
  apply NoDup_cons. split; [|by apply IH].
  intros (y & Hfy & Hy)%list_elem_of_fmap. apply Hx.
  apply list_elem_of_fmap. exists y. split; [done|].
  by apply list_elem_of_filter in Hy as [_ ?].
Qed.

(** Replacing the row with key [k] by a row whose field [f] no other row
    has keeps the fields distinct. *)
Lemma NoDup_fmap_update {B} (f : User.t → B) (e : User.t) l :
  NoDup (User.id <$> l) → NoDup (f <$> l) →
  (∀ v, v ∈ l → User.id v ≠ User.id e → f v ≠ f e) →
  NoDup (f <$> ((λ v, if decide (User.id v = User.id e) then e else v) <$> l)).
Proof.
  set (upd := λ v, if decide (User.id v = User.id e) then e else v).
  induction l as [|v l IH]; [done|]. csimpl.
  rewrite !NoDup_cons. intros [Hkey Hkeys] [Hfv Hfs] Hfree.
  split.
  - intros (w' & Hfw & (w & -> & Hw)%list_elem_of_fmap)%list_elem_of_fmap.
    unfold upd in Hfw at 1 2. repeat case_decide.
    + apply Hkey. apply list_elem_of_fmap. exists w. split; [congruence|done].
    + apply (Hfree w); [by right|done|done].
    + apply (Hfree v); [left|done|done].
    + apply Hfv. apply list_elem_of_fmap. by exists w.
  - apply IH; [done..|]. intros w Hw. apply Hfree. by right.
Qed.

Lemma users_unique_step `{Env} r st :
  users_unique (db st) → users_unique (db (state_after (handle r st))).
Proof.
  intros Hinv. pose proof Hinv as (Hids & Hnames & Hemails & Hseq).
  destruct r; simpl.
  - unfold signup. destruct form as [f|]; [|done].
    destruct (uaf_validate f); [|done].
    set (pending := User_signup _ _ _ _). unfold commit_new_user.
    case_decide as Htaken; simpl.
    + unfold users_unique. simpl. split_and!; [done..|].
      eapply Forall_impl; [exact Hseq|]. simpl. lia.
    + unfold users_unique. simpl. rewrite !fmap_app. simpl.
      unfold taken in Htaken. rewrite Exists_exists in Htaken.
      rewrite Forall_forall in Hseq.
      split_and!.
      * apply NoDup_app. split_and!; [done| |apply NoDup_singleton].
        intros k (v & -> & Hv)%list_elem_of_fmap Hk%list_elem_of_singleton.
        specialize (Hseq v Hv). simpl in Hseq, Hk. lia.
      * apply NoDup_app. split_and!; [done| |apply NoDup_singleton].
        intros k (v & -> & Hv)%list_elem_of_fmap Hk%list_elem_of_singleton.
        apply Htaken. exists v. split; [done|]. split; [done|]. by left.
      * apply NoDup_app. split_and!; [done| |apply NoDup_singleton].
        intros k (v & -> & Hv)%list_elem_of_fmap Hk%list_elem_of_singleton.
        apply Htaken. exists v. split; [done|]. split; [done|]. by right.
      * apply Forall_app. split.
        -- apply Forall_forall. intros v Hv. specialize (Hseq v Hv). lia.
        -- apply Forall_singleton. simpl. lia.
  - unfold login. destruct form as [f|]; [|done].
    destruct (lf_validate f); [|done]. by destruct (User_authenticate _ _ _).
  - unfold logout. by destruct (csrf_validate_on_submit _ _) as [e|[]].
  - unfold list_users. by through_gate.
  - unfold show_user, show_user_page. through_gate.
    by destruct (User_query_get _ _).
  - unfold show_following, show_user_page. through_gate.
    by destruct (User_query_get _ _).
  - unfold show_followers, show_user_page. through_gate.
    by destruct (User_query_get _ _).
  - unfold show_favorite_warbles. by through_gate.
  - unfold start_following. through_gate.
    destruct (User_query_get _ _); [|done]. case_decide; [done|].
    unfold following_append. by case_decide.
  - unfold stop_following. through_gate.
    destruct (User_query_get _ _); [|done]. unfold following_remove.
    by destruct (list_remove _ (follows (db st))).
  - unfold profile. through_gate.
    destruct form as [f|]; [|done]. destruct (ef_validate f); [|done].
    destruct (User_authenticate _ _ _); [|done].
    set (edited := User.mk _ _ _ _ _ _ _).
    unfold commit_update_user. case_decide as Htaken; [done|]. simpl.
    unfold taken in Htaken. rewrite Exists_exists in Htaken.
    assert (Hfree : ∀ v, v ∈ users (db st) → User.id v ≠ User.id edited →
              User.username v ≠ User.username edited ∧
              User.email v ≠ User.email edited).
    { intros v Hv Hne. split; intros Heq; apply Htaken; exists v;
        (split; [done|]); (split; [congruence|]); auto. }
    unfold users_unique. simpl. split_and!.
    + rewrite <- list_fmap_compose.
      erewrite list_fmap_ext; [exact Hids|]. intros i v _. simpl. by case_decide.
    + apply (NoDup_fmap_update User.username edited); [done..|].
      intros v Hv Hne. by apply Hfree.
    + apply (NoDup_fmap_update User.email edited); [done..|].
      intros v Hv Hne. by apply Hfree.
    + apply Forall_fmap. rewrite Forall_forall in Hseq.
      apply Forall_forall. intros v Hv. simpl.
      case_decide as Hid; [|by apply Hseq]. simpl. rewrite <- Hid. by apply Hseq.
  - unfold delete_user. through_gate. unfold users_unique. simpl. split_and!.
    + by apply NoDup_fmap_filter.
    + by apply NoDup_fmap_filter.
    + by apply NoDup_fmap_filter.
    + apply Forall_forall. intros v [_ Hv]%list_elem_of_filter.
      rewrite Forall_forall in Hseq. by apply Hseq.
  - unfold add_message. through_gate.
    destruct form as [f|]; [|done]. by destruct (mf_validate f).
  - unfold show_message. through_gate. by destruct (Message_query_get _ _).
  - unfold delete_message. destruct (Message_query_get _ _) as [msg|]; [|done].
    destruct (g_user _) as [u|]; [|done]. case_decide; [done|].
    by destruct (csrf_validate_on_submit _ _) as [e|[]].
  - unfold handle_favorites. through_gate.
    destruct (Message_query_get _ _) as [msg|]; [|done].
    case_decide; [done|]. unfold liked_messages_remove.
    by destruct (list_remove _ (likes (db st))).
  - unfold homepage. by destruct (g_user _).
Qed.

(** X20: when the stored users have distinct keys, usernames and emails
    and the key sequence is past every key, the same holds after every run
    of requests: signups and profile edits that would repeat a username or
    an email write nothing, and no key is handed out twice. *)
Theorem users_stay_unique `{Env} rs st :
  users_unique (db st) → users_unique (db (run rs st)).
Proof.
  unfold run. revert st. induction rs as [|r rs IH]; intros st Hinv; [done|].
  simpl. apply IH. by apply users_unique_step.
Qed.

Lemma test_users_unique : users_unique (db test_state).
Proof.
  unfold users_unique. simpl. split_and!.
  - apply NoDup_cons. split; [|apply NoDup_singleton].
    intros Hin%list_elem_of_singleton. discriminate Hin.
  - apply NoDup_cons. split; [|apply NoDup_singleton].
    intros Hin%list_elem_of_singleton. discriminate Hin.
  - apply NoDup_cons. split; [|apply NoDup_singleton].
    intros Hin%list_elem_of_singleton. discriminate Hin.
  - apply Forall_forall. intros v Hv.
    apply elem_of_cons in Hv as [->|Hv]; [simpl; lia|].
    apply list_elem_of_singleton in Hv as ->. simpl. lia.
Defined.

Lemma users_stay_unique_witness :
  users_unique (db test_state) ∧
  users_unique (db (run [Signup (Some duplicate_form);
                         Login (Some (Build_LoginForm true [] "u1" "password"));
                         Profile (Some taken_edit_form);
                         Signup (Some new_user_form)] test_state)).
Proof.
  split; [exact test_users_unique|].
  exact (users_stay_unique _ test_state test_users_unique).
Defined.

(** ** Only a redirect comes with a change *)

(** X21: outside [/signup], a request that is not answered by a redirect
    has changed neither the tables nor the session: a rendered page, a
    not-found, an [Unauthorized] and an uncaught exception all leave the
    state as the request met it. *)
Theorem change_only_with_redirect `{Env} r st :
  (∀ form, r ≠ Signup form) →
  (∀ location, response (handle r st) ≠ Redirect location) →
  (∀ location, response (handle r st) ≠ RedirectForm location) →
  state_after (handle r st) = st.
Proof.
  intros Hr Hn1 Hn2. revert Hn1 Hn2.
  destruct r; simpl; try (by destruct (Hr form)).
  - unfold login. destruct form as [f|]; [|done].
    destruct (lf_validate f); [|done].
    destruct (User_authenticate _ _ _); [|done]. simpl. intros Hn1. by destruct (Hn1 "/").
  - unfold logout. destruct (csrf_validate_on_submit _ _) as [e|[]]; [done| |done].
    simpl. intros Hn1. by destruct (Hn1 "/login").
  - unfold list_users. by through_gate.
  - unfold show_user, show_user_page. through_gate.
    by destruct (User_query_get _ _).
  - unfold show_following, show_user_page. through_gate.
    by destruct (User_query_get _ _).
  - unfold show_followers, show_user_page. through_gate.
    by destruct (User_query_get _ _).
  - unfold show_favorite_warbles. by through_gate.
  - unfold start_following. through_gate.
    destruct (User_query_get _ _); [|done]. case_decide; [done|].
    simpl. intros Hn1. by destruct (Hn1 (user_url u ++ "/following")).
  - unfold stop_following. through_gate.
    destruct (User_query_get _ _); [|done].
    destruct (following_remove _ _ _); [done|].
    simpl. intros Hn1. by destruct (Hn1 (user_url u ++ "/following")).
  - unfold profile. through_gate.
    destruct form as [f|]; [|done]. destruct (ef_validate f); [|done].
    destruct (User_authenticate _ _ _); [|done].
    destruct (commit_update_user _ _) as [[]|]; [done..|].
    simpl. intros Hn1. by destruct (Hn1 (user_url u)).
  - unfold delete_user. through_gate. simpl. intros Hn1. by destruct (Hn1 "/signup").
  - unfold add_message. through_gate.
    destruct form as [f|]; [|done]. destruct (mf_validate f); [|done].
    simpl. intros Hn1. by destruct (Hn1 (user_url u)).
  - unfold show_message. through_gate. by destruct (Message_query_get _ _).
  - unfold delete_message. destruct (Message_query_get _ _) as [msg|]; [|done].
    destruct (g_user _) as [u|]; [|done]. case_decide; [done|].
    destruct (csrf_validate_on_submit _ _) as [e|[]]; [done| |done].
    simpl. intros Hn1. by destruct (Hn1 (user_url u)).
  - unfold handle_favorites. through_gate.
    destruct (Message_query_get _ _); [|done]. case_decide.
    + simpl. intros _ Hn2. by destruct (Hn2 origin_url).
    + destruct (liked_messages_remove _ _ _); [done|].
      simpl. intros _ Hn2. by destruct (Hn2 origin_url).
  - unfold homepage. by destruct (g_user _).
Qed.

Lemma change_only_with_redirect_witness :
  (∀ form, StopFollowing 1 true ≠ Signup form) ∧
  response (handle (StopFollowing 1 true) test_state2) = Uncaught ValueError ∧
  state_after (handle (StopFollowing 1 true) test_state2) = test_state2.
Proof.
  assert (Hr : ∀ form, StopFollowing 1 true ≠ Signup form) by discriminate.
  assert (Hresp : response (handle (StopFollowing 1 true) test_state2)
                  = Uncaught ValueError) by (vm_compute; reflexivity).
  split; [exact Hr|]. split; [exact Hresp|].
  apply (change_only_with_redirect (StopFollowing 1 true) test_state2 Hr).
  - intros location. rewrite Hresp. discriminate.
  - intros location. rewrite Hresp. discriminate.
Defined.

(** ** No dangling references *)

Lemma g_user_stored st u :
  g_user (add_user_and_csrf_to_g st) = Some u →
  User.id u ∈ (User.id <$> users (db st)).
Proof.
  intros (_ & _ & Hq)%g_user_Some.
  apply User_query_get_Some in Hq as [Hin _]. by apply list_elem_of_fmap_2.
Qed.

Lemma references_ok_step `{Env} r st :
  references_ok (db st) → references_ok (db (state_after (handle r st))).
Proof.
  intros Hinv. pose proof Hinv as (Hmsg & Hfol & Hlik).
  destruct r; simpl.
  - unfold signup. destruct form as [f|]; [|done].
    destruct (uaf_validate f); [|done].
    set (pending := User_signup _ _ _ _). unfold commit_new_user.
    case_decide as Htaken; simpl; [done|].
    unfold references_ok. simpl. rewrite fmap_app.
    split_and!.
    + intros m Hm. apply elem_of_app. left. by apply Hmsg.
    + intros e He. destruct (Hfol e He). rewrite !elem_of_app. auto.
    + intros e He. destruct (Hlik e He). rewrite !elem_of_app. auto.
  - unfold login. destruct form as [f|]; [|done].
    destruct (lf_validate f); [|done]. by destruct (User_authenticate _ _ _).
  - unfold logout. by destruct (csrf_validate_on_submit _ _) as [e|[]].
  - unfold list_users. by through_gate.
  - unfold show_user, show_user_page. through_gate.
    by destruct (User_query_get _ _).
  - unfold show_following, show_user_page. through_gate.
    by destruct (User_query_get _ _).
  - unfold show_followers, show_user_page. through_gate.
    by destruct (User_query_get _ _).
  - unfold show_favorite_warbles. by through_gate.
  - unfold start_following. through_gate.
    destruct (User_query_get (db st) follow_id) as [v|] eqn:Hv; [|done].
    case_decide; [done|]. unfold following_append. case_decide; [done|].
    unfold references_ok. simpl.
    split_and!; [done| |done].
    intros e [He|He%list_elem_of_singleton]%elem_of_app; [by apply Hfol|].
    subst e. simpl. split; [by apply g_user_stored|].
    apply User_query_get_Some in Hv as [Hin _]. by apply list_elem_of_fmap_2.
  - unfold stop_following. through_gate.
    destruct (User_query_get _ _); [|done]. unfold following_remove.
    destruct (list_remove _ (follows (db st))) as [fs|] eqn:Hrm; [|done].
    unfold references_ok. simpl. split_and!; [done| |done].
    intros e He. apply Hfol. eapply elem_of_sublist; [exact He|].
    by eapply list_remove_sublist.
  - unfold profile. through_gate.
    destruct form as [f|]; [|done]. destruct (ef_validate f); [|done].
    destruct (User_authenticate _ _ _); [|done].
    destruct (commit_update_user _ (db st)) as [[]|d'] eqn:Hc; [done..|].
    apply commit_update_user_ok in Hc as (Hm & Hf & Hl & Hids & _).
    unfold references_ok. simpl. by rewrite Hm, Hf, Hl, Hids.
  - unfold delete_user. through_gate. unfold references_ok. simpl.
    assert (Hkept : ∀ k, k ∈ (User.id <$> users (db st)) → k ≠ User.id u →
              k ∈ (User.id <$> filter (λ v, User.id v ≠ User.id u) (users (db st)))).
    { intros k (v & -> & Hv)%list_elem_of_fmap Hne.
      apply list_elem_of_fmap_2. by apply list_elem_of_filter. }
    split_and!.
    + intros m [Hown Hm]%list_elem_of_filter. apply Hkept; [by apply Hmsg|done].
    + intros e [[Ha Hb] He]%list_elem_of_filter. destruct (Hfol e He).
      split; by apply Hkept.
    + intros e [[Ha Hb] He]%list_elem_of_filter. destruct (Hlik e He) as [Hlu Hlm].
      split; [by apply Hkept|].
      apply list_elem_of_fmap in Hlm as (m & Hid & Hm).
      apply list_elem_of_fmap. exists m. split; [done|].
      apply list_elem_of_filter. split; [|done]. intros Hown. apply Hb.
      apply list_elem_of_fmap. exists m. split; [done|].
      by apply list_elem_of_filter.
  - unfold add_message. through_gate.
    destruct form as [f|]; [|done]. destruct (mf_validate f); [|done].
    unfold references_ok. simpl. rewrite fmap_app. split_and!; [|done|].
    + intros m [Hm|Hm%list_elem_of_singleton]%elem_of_app; [by apply Hmsg|].
      subst m. simpl. by apply g_user_stored.
    + intros e He. destruct (Hlik e He). rewrite elem_of_app. auto.
  - unfold show_message. through_gate. by destruct (Message_query_get _ _).
  - unfold delete_message. destruct (Message_query_get _ _) as [msg|]; [|done].
    destruct (g_user _) as [u|]; [|done]. case_decide; [done|].
    destruct (csrf_validate_on_submit _ _) as [e|[]]; [done| |done].
    unfold references_ok. simpl. split_and!; [|done|].
    + intros m [_ Hm]%list_elem_of_filter. by apply Hmsg.
    + intros e [Hne He]%list_elem_of_filter. destruct (Hlik e He) as [Hlu Hlm].
      split; [done|].
      apply list_elem_of_fmap in Hlm as (m & Hid & Hm).
      apply list_elem_of_fmap. exists m. split; [done|].
      apply list_elem_of_filter. split; [congruence|done].
  - unfold handle_favorites. through_gate.
    destruct (Message_query_get (db st) message_id) as [msg|] eqn:Hq; [|done].
    case_decide.
    + unfold references_ok. simpl. split_and!; [done..|].
      intros e [He|He%list_elem_of_singleton]%elem_of_app; [by apply Hlik|].
      subst e. simpl. split; [by apply g_user_stored|].
      apply Message_query_get_Some in Hq as [Hin _]. by apply list_elem_of_fmap_2.
    + unfold liked_messages_remove.
      destruct (list_remove _ (likes (db st))) as [ls|] eqn:Hrm; [|done].
      unfold references_ok. simpl. split_and!; [done..|].
      intros e He. apply Hlik. eapply elem_of_sublist; [exact He|].
      by eapply list_remove_sublist.
  - unfold homepage. by destruct (g_user _).
Qed.

(** X22: when no stored row points at a row that is not stored, the same
    holds after every run of requests: a follow or like edge is only made
    between rows the handler has just looked up, and deleting a user or a
    message takes the rows that point at it along. *)
Theorem references_stay_ok `{Env} rs st :
  references_ok (db st) → references_ok (db (run rs st)).
Proof.
  unfold run. revert st. induction rs as [|r rs IH]; intros st Hinv; [done|].
  simpl. apply IH. by apply references_ok_step.
Qed.

Lemma test_references_ok : references_ok (db test_state).
Proof.
  unfold references_ok. simpl. split_and!.
  - intros m Hm. apply elem_of_cons in Hm as [->|Hm]; [left|].
    apply list_elem_of_singleton in Hm as ->. right. left.
  - intros e He. apply list_elem_of_singleton in He as ->. simpl.
    split; [left | right; left].
  - intros e He. apply list_elem_of_singleton in He as ->. simpl.
    split; [left | right; left].
Defined.

Lemma references_stay_ok_witness :
  references_ok (db test_state) ∧
  references_ok (db (run [HandleFavorites 1 true None; AddMessage (Some hello_form) 30;
                          DeleteMessage 1 true; DeleteUser true] test_state)).
Proof.
  split; [exact test_references_ok|].
  exact (references_stay_ok _ test_state test_references_ok).
Defined.

(** ** The current user *)

(** X23: what every request starts from: [g.csrf_form] is set exactly when
    the session holds the current-user key, and [g.user], when it is set,
    is a stored user whose id is the key of the session; a session without
    the key, or with the key of no stored user, gives no current user. *)
Theorem current_user_stored st :
  let g := add_user_and_csrf_to_g st in
  (g_csrf_form g = true ↔ is_Some (session st !! CURR_USER_KEY)) ∧
  (∀ u, g_user g = Some u ↔
        u ∈ users (db st) ∧ session st !! CURR_USER_KEY = Some (User.id u) ∧
        User_query_get (db st) (User.id u) = Some u) ∧
  (g_user g = None ↔
   match session st !! CURR_USER_KEY with
   | Some k => ∀ v, v ∈ users (db st) → User.id v ≠ k
   | None => True
   end).
Proof.
  intros g. subst g. unfold add_user_and_csrf_to_g.
  destruct (session st !! CURR_USER_KEY) as [k|] eqn:Hs; simpl.
  - split_and!.
    + split; [by eexists | done].
    + intros u. split.
      * intros Hq. destruct (User_query_get_Some _ _ _ Hq) as [Hin <-]. done.
      * intros (_ & [= ->] & Hq). done.
    + apply User_query_get_None.
  - split_and!.
    + split; [done | by intros [? ?]].
    + intros u. split; [done | by intros (_ & ? & _)].
    + done.
Qed.
